(** * Cart gateway: [cart-store-api.api.service.js]

    A shallow embedding of the [CartStoreService] class of the Shopware
    administration and the properties of its line-item payload logic.

    The service is JavaScript: its arguments are dynamically typed, absent
    properties read as [undefined], conditions go through truthiness and
    [===], and reading a property of [null] or [undefined] throws.  The
    embedding keeps all of that:

    - [value] is the JavaScript value universe the service handles;
    - [M] is a state-and-exception monad: the state is the allocator of
      object identities (and whatever the collaborators keep), the
      exception is the runtime [TypeError];
    - every method of the class is a function into [M] named as in the
      source; a method that ends in [this.httpClient.<verb>(...)] returns
      the [request] it hands to the transport. *)

Set Warnings "-register-all".
From Stdlib Require Import Floats.PrimFloat.
From stdpp Require Import gmap strings list fin_maps pretty.

Local Open Scope string_scope.

(** ** Values *)

(** Identity of an object.  [Loc n] is an ordinary object, allocated by
    running code, whose properties are plain writable data properties;
    [Frozen s] is a constant of a module that went through
    [Object.freeze]; [Builtin s] is a built-in of the realm.  The last
    two exist before any call and are named by [s]. *)
Inductive ref :=
| Loc (n : nat)
| Frozen (name : string)
| Builtin (name : string).

Definition frozen (r : ref) : bool :=
  match r with
  | Frozen _ => true
  | _ => false
  end.

(** What kind of object a snapshot describes; it fixes the prototype
    ([Object.prototype], [Array.prototype], [Function.prototype]). *)
Inductive class :=
| Plain
| Array
| Function.

(** A JavaScript value.  Numbers are IEEE 754 binary64, as in the
    language.  An object is its identity, its class and a snapshot of its
    own properties; an array is an object of class [Array] whose own
    properties are its indices and [length]. *)
Inductive value :=
| VUndefined
| VNull
| VBool (b : bool)
| VNum (x : float)
| VStr (s : string)
| VObj (r : ref) (c : class) (props : gmap string value).

#[global] Instance ref_eq_dec : EqDecision ref.
Proof. solve_decision. Defined.

(** [ToBoolean]: the falsy values are [undefined], [null], [false], [+0],
    [-0], [NaN] and the empty string. *)
Definition to_boolean (v : value) : bool :=
  match v with
  | VUndefined | VNull => false
  | VBool b => b
  | VNum x => PrimFloat.eqb x x && negb (PrimFloat.eqb x 0%float)
  | VStr s => negb (String.eqb s "")
  | VObj _ _ _ => true
  end.

(** [===].  Numbers compare as IEEE doubles ([NaN] differs from itself,
    the two zeros are equal); objects compare by identity. *)
Definition strict_equals (a b : value) : bool :=
  match a, b with
  | VUndefined, VUndefined => true
  | VNull, VNull => true
  | VBool x, VBool y => Bool.eqb x y
  | VNum x, VNum y => PrimFloat.eqb x y
  | VStr x, VStr y => String.eqb x y
  | VObj r _ _, VObj r' _ _ => bool_decide (r = r')
  | _, _ => false
  end.

(** ** Completions and the monad *)

Inductive error :=
| TypeError.

Inductive completion (A : Type) :=
| Normal (a : A)
| Throw (e : error).
Arguments Normal {A} a.
Arguments Throw {A} e.

(** The state a call runs in: the next free object identity, and the
    state of the identifier generator. *)
Record world := World {
  next_loc : nat;
  id_seed : nat
}.

Definition M (A : Type) : Type := world → completion A * world.

#[global] Instance completion_ret : MRet completion := λ A a, Normal a.
#[global] Instance completion_bind : MBind completion := λ A B f c,
  match c with
  | Normal a => f a
  | Throw e => Throw e
  end.

#[global] Instance M_ret : MRet M := λ A a w, (Normal a, w).
#[global] Instance M_bind : MBind M := λ A B f m w,
  match m w with
  | (Normal a, w') => f a w'
  | (Throw e, w') => (Throw e, w')
  end.

Definition lift {A} (c : completion A) : M A := λ w, (c, w).

(** [m] run in [w] returns [a] and leaves [w']. *)
Definition returns {A} (m : M A) (w : world) (a : A) (w' : world) : Prop :=
  m w = (Normal a, w').

(** [m] run in [w] returns normally. *)
Definition runs {A} (m : M A) (w : world) : Prop :=
  ∃ a w', returns m w a w'.

(** ** Property access *)

(** [v.k] for the property names the service reads: [_isNew], [type],
    [identifier], [id], [price], [unitPrice], [priceDefinition],
    [taxRules], [quantity], [label], [description], [salesChannelId] on
    its arguments, and the upper-case names of its own constants.  None
    of them is defined on a standard prototype or on a primitive, so the
    read is the own property, or [undefined]; on [null] and [undefined]
    it throws. *)
Definition get_prop (v : value) (k : string) : completion value :=
  match v with
  | VUndefined | VNull => Throw TypeError
  | VObj _ _ props => Normal (default VUndefined (props !! k))
  | VBool _ | VNum _ | VStr _ => Normal VUndefined
  end.

(** [v.k = x] in strict code (the file is an ES module).  On an object the
    property is created or overwritten; on a frozen object, a primitive,
    [null] or [undefined] the assignment throws.  The result is the
    updated snapshot of [v]. *)
Definition set_prop (v : value) (k : string) (x : value) : completion value :=
  match v with
  | VObj r c props =>
      if frozen r then Throw TypeError else Normal (VObj r c (<[k := x]> props))
  | _ => Throw TypeError
  end.

Definition get (v : value) (k : string) : M value := lift (get_prop v k).
Definition set (v : value) (k : string) (x : value) : M value := lift (set_prop v k x).

(** The world after one allocation. *)
Definition bump (w : world) : world :=
  {| next_loc := S (next_loc w); id_seed := id_seed w |}.

(** An object literal [{ ... }]: a fresh object. *)
Definition new_object (c : class) (props : gmap string value) : M value :=
  λ w, (Normal (VObj (Loc (next_loc w)) c props), bump w).

(** The array literal [[x]]. *)
Definition new_array1 (x : value) : M value :=
  new_object Array {[ "0" := x; "length" := VNum 1%float ]}.

(** A default parameter [p = {}]: the default is evaluated when the
    argument is [undefined]. *)
Definition default_object (arg : value) : M value :=
  match arg with
  | VUndefined => new_object Plain ∅
  | _ => mret arg
  end.

(** A built-in function of the realm. *)
Definition builtin (name : string) : value := VObj (Builtin name) Function ∅.

(** What a plain object inherits from [Object.prototype]: the standard
    methods, the legacy helpers for accessors and the [__proto__]
    accessor, which reads as the prototype itself. *)
Definition object_prototype_methods : gmap string value :=
  list_to_map
    [ ("constructor", builtin "Object");
      ("hasOwnProperty", builtin "Object.prototype.hasOwnProperty");
      ("isPrototypeOf", builtin "Object.prototype.isPrototypeOf");
      ("propertyIsEnumerable", builtin "Object.prototype.propertyIsEnumerable");
      ("toLocaleString", builtin "Object.prototype.toLocaleString");
      ("toString", builtin "Object.prototype.toString");
      ("valueOf", builtin "Object.prototype.valueOf");
      ("__defineGetter__", builtin "Object.prototype.__defineGetter__");
      ("__defineSetter__", builtin "Object.prototype.__defineSetter__");
      ("__lookupGetter__", builtin "Object.prototype.__lookupGetter__");
      ("__lookupSetter__", builtin "Object.prototype.__lookupSetter__") ].

Definition object_prototype : gmap string value :=
  <[ "__proto__" := VObj (Builtin "Object.prototype") Plain object_prototype_methods ]>
    object_prototype_methods.

(** [o[k]] on a plain object with own properties [props]: the own
    property, else the one inherited from [Object.prototype], else
    [undefined]. *)
Definition get_computed (props : gmap string value) (k : string) : value :=
  match props !! k with
  | Some v => v
  | None => default VUndefined (object_prototype !! k)
  end.

(** ** The constants of the module *)

Inductive verb :=
| GET
| POST
| PATCH
| DELETE.

(** A call [this.httpClient.<verb>(route, [data,] config)]. *)
Record request := Request {
  method : verb;
  route : string;
  data : option value;
  config : value
}.

Definition lineItemConstants_types : value :=
  VObj (Frozen "lineItemConstants.types") Plain
    {[ "PRODUCT" := VStr "product";
       "CREDIT" := VStr "credit";
       "CUSTOM" := VStr "custom";
       "PROMOTION" := VStr "promotion" ]}.

Definition lineItemConstants_priceTypes : value :=
  VObj (Frozen "lineItemConstants.priceTypes") Plain
    {[ "ABSOLUTE" := VStr "absolute";
       "QUANTITY" := VStr "quantity" ]}.

(** The operations that target an existing cart, with their arguments in
    the order of the source. *)
Inductive cartOperation :=
| GetCart (salesChannelId contextToken additionalParams additionalHeaders : value)
| CancelCart (salesChannelId contextToken additionalParams additionalHeaders : value)
| RemoveLineItems
    (salesChannelId contextToken lineItemKeys additionalParams additionalHeaders : value)
| SaveLineItem (salesChannelId contextToken item additionalParams additionalHeaders : value)
| AddPromotionCode (salesChannelId contextToken code additionalParams additionalHeaders : value)
| ModifyShippingCosts
    (salesChannelId contextToken shippingCosts additionalHeaders additionalParams : value)
| DisableAutomaticPromotions (contextToken additionalParams additionalHeaders : value)
| EnableAutomaticPromotions (contextToken additionalParams additionalHeaders : value).

Definition contextTokenOf (op : cartOperation) : value :=
  match op with
  | GetCart _ t _ _ | CancelCart _ t _ _ | RemoveLineItems _ t _ _ _
  | SaveLineItem _ t _ _ _ | AddPromotionCode _ t _ _ _ | ModifyShippingCosts _ t _ _ _
  | DisableAutomaticPromotions t _ _ | EnableAutomaticPromotions t _ _ => t
  end.

(** The two toggles of the automatic promotions. *)
Inductive toggle :=
| Disable
| Enable.

Module CartStoreService.
Section service.

(** *** Collaborators

    The base class [ApiService], the utilities and the feature service
    are not part of this file; the class is parameterised by them. *)

(** [ToString] of the engine on values that are not strings (numbers,
    arrays, objects).  On a primitive the conversion cannot throw.  On an
    object it can, when the object has no usable [toString] and
    [valueOf]; [ToString] then stands for a conversion that succeeded,
    and what is stated of a call that does return holds of the code as
    it is.  That a call returns is stated for primitives in the places
    where the code converts, see [primitive]. *)
Variable ToString : value → string.

(** [this.getApiVersion()] of the base class. *)
Variable getApiVersion : value.

(** [this.getBasicHeaders(additionalHeaders)] of the base class: the own
    properties of the headers object it returns. *)
Variable getBasicHeaders : value → gmap string value.

(** [deepCopyObject] of [object.utils]. *)
Variable deepCopyObject : value → M value.

(** [utils.createId()]: it returns an identifier and never throws. *)
Variable createId : world → value * world.

(** [Shopware.Service('feature').isActive(flag)]. *)
Variable isActive : string → bool.

(** A template-literal substitution [${v}] and the key of [o[v]]. *)
Definition to_string (v : value) : string :=
  match v with
  | VStr s => s
  | _ => ToString v
  end.

Definition utils_createId : M value :=
  λ w, let (v, w') := createId w in (Normal v, w').

(** [this.httpClient]: the transport is a collaborator, a call to it is
    recorded as the [request] it receives. *)
Definition httpClient_get (route : string) (config : value) : M request :=
  mret (Request GET route None config).

Definition httpClient_delete (route : string) (config : value) : M request :=
  mret (Request DELETE route None config).

Definition httpClient_post (route : string) (payload config : value) : M request :=
  mret (Request POST route (Some payload) config).

Definition httpClient_patch (route : string) (payload config : value) : M request :=
  mret (Request PATCH route (Some payload) config).

(** [{ ...this.getBasicHeaders(additionalHeaders), 'sw-context-token': contextToken }] *)
Definition contextHeaders (additionalHeaders contextToken : value) : M value :=
  new_object Plain (<[ "sw-context-token" := contextToken ]> (getBasicHeaders additionalHeaders)).

(** [{ additionalParams, headers }] *)
Definition requestConfig (additionalParams headers : value) : M value :=
  new_object Plain {[ "additionalParams" := additionalParams; "headers" := headers ]}.

(** *** The methods of [CartStoreService] *)

Definition getLineItemTypes : M value := mret lineItemConstants_types.

Definition getLineItemPriceTypes : M value := mret lineItemConstants_priceTypes.

Definition mapLineItemTypeToPriceType (itemType : value) : M value :=
  lineItemTypes ← getLineItemTypes;
  priceTypes ← getLineItemPriceTypes;
  product ← get lineItemTypes "PRODUCT";
  quantity ← get priceTypes "QUANTITY";
  custom ← get lineItemTypes "CUSTOM";
  quantity' ← get priceTypes "QUANTITY";
  credit ← get lineItemTypes "CREDIT";
  absolute ← get priceTypes "ABSOLUTE";
  let mapTypes : gmap string value :=
    <[ to_string credit := absolute ]>
      (<[ to_string custom := quantity' ]>
         (<[ to_string product := quantity ]> ∅)) in
  mret (get_computed mapTypes (to_string itemType)).

Definition cartRoute (salesChannelId : value) : string :=
  "_proxy/store-api/" +:+ to_string salesChannelId +:+ "/v" +:+ to_string getApiVersion
    +:+ "/checkout/cart".

Definition createCart (salesChannelId additionalParams additionalHeaders : value) : M request :=
  additionalParams ← default_object additionalParams;
  additionalHeaders ← default_object additionalHeaders;
  let route := cartRoute salesChannelId in
  headers ← new_object Plain (getBasicHeaders additionalHeaders);
  config ← requestConfig additionalParams headers;
  httpClient_get route config.

Definition getCart (salesChannelId contextToken additionalParams additionalHeaders : value)
  : M request :=
  additionalParams ← default_object additionalParams;
  additionalHeaders ← default_object additionalHeaders;
  let route := cartRoute salesChannelId in
  headers ← contextHeaders additionalHeaders contextToken;
  config ← requestConfig additionalParams headers;
  httpClient_get route config.

Definition cancelCart (salesChannelId contextToken additionalParams additionalHeaders : value)
  : M request :=
  additionalParams ← default_object additionalParams;
  additionalHeaders ← default_object additionalHeaders;
  let route := cartRoute salesChannelId in
  headers ← contextHeaders additionalHeaders contextToken;
  config ← requestConfig additionalParams headers;
  httpClient_delete route config.

Definition removeLineItems
  (salesChannelId contextToken lineItemKeys additionalParams additionalHeaders : value)
  : M request :=
  additionalParams ← default_object additionalParams;
  additionalHeaders ← default_object additionalHeaders;
  let route := cartRoute salesChannelId +:+ "/line-item" in
  headers ← contextHeaders additionalHeaders contextToken;
  ids ← new_object Plain {[ "ids" := lineItemKeys ]};
  config ← new_object Plain
    {[ "additionalParams" := additionalParams; "headers" := headers; "data" := ids ]};
  httpClient_delete route config.

Definition getRouteForItem (id salesChannelId : value) : M string :=
  mret ("_proxy/store-api/" +:+ to_string salesChannelId +:+ "/v" +:+ to_string getApiVersion
          +:+ "/checkout/cart/line-item").

Definition getPayloadForItem (item salesChannelId isNewProductItem id : value) : M value :=
  dummyPrice ←
    (if negb (to_boolean isNewProductItem) then
       price ← get item "price";
       unitPrice ← get price "unitPrice";
       priceDefinition ← get item "priceDefinition";
       definedPrice ← get priceDefinition "price";
       if negb (strict_equals unitPrice definedPrice) then
         priceDefinition ← get item "priceDefinition";
         dummyPrice ← deepCopyObject priceDefinition;
         priceDefinition ← get item "priceDefinition";
         taxRules ← get priceDefinition "taxRules";
         dummyPrice ← set dummyPrice "taxRules" taxRules;
         quantity ← get item "quantity";
         dummyPrice ← set dummyPrice "quantity" quantity;
         type ← get item "type";
         priceType ← mapLineItemTypeToPriceType type;
         set dummyPrice "type" priceType
       else mret VNull
     else mret VNull);
  label ← get item "label";
  quantity ← get item "quantity";
  type ← get item "type";
  description ← get item "description";
  lineItem ← new_object Plain
    {[ "id" := id;
       "referencedId" := id;
       "label" := label;
       "quantity" := quantity;
       "type" := type;
       "description" := description;
       "priceDefinition" := dummyPrice;
       "stackable" := VBool true;
       "removable" := VBool true;
       "salesChannelId" := salesChannelId ]};
  items ← new_array1 lineItem;
  new_object Plain {[ "items" := items ]}.

Definition saveLineItem
  (salesChannelId contextToken item additionalParams additionalHeaders : value)
  : M request :=
  additionalParams ← default_object additionalParams;
  additionalHeaders ← default_object additionalHeaders;
  isNew ← get item "_isNew";
  isNewProductItem ←
    (if to_boolean isNew then
       type ← get item "type";
       lineItemTypes ← getLineItemTypes;
       product ← get lineItemTypes "PRODUCT";
       mret (VBool (strict_equals type product))
     else mret isNew);
  identifier ← get item "identifier";
  id ←
    (if to_boolean identifier then mret identifier
     else
       itemId ← get item "id";
       if to_boolean itemId then mret itemId else utils_createId);
  route ← getRouteForItem id salesChannelId;
  headers ← contextHeaders additionalHeaders contextToken;
  payload ← getPayloadForItem item salesChannelId isNewProductItem id;
  isNew ← get item "_isNew";
  config ← requestConfig additionalParams headers;
  if to_boolean isNew then httpClient_post route payload config
  else httpClient_patch route payload config.

Definition addPromotionCode
  (salesChannelId contextToken code additionalParams additionalHeaders : value)
  : M request :=
  additionalParams ← default_object additionalParams;
  additionalHeaders ← default_object additionalHeaders;
  let route := cartRoute salesChannelId +:+ "/line-item" in
  headers ← contextHeaders additionalHeaders contextToken;
  promotion ← new_object Plain {[ "type" := VStr "promotion"; "referencedId" := code ]};
  items ← new_array1 promotion;
  payload ← new_object Plain {[ "items" := items ]};
  config ← requestConfig additionalParams headers;
  httpClient_post route payload config.

Definition modifyShippingCosts
  (salesChannelId contextToken shippingCosts additionalHeaders additionalParams : value)
  : M request :=
  additionalParams ← default_object additionalParams;
  let route := "_proxy/modify-shipping-costs" in
  headers ← contextHeaders additionalHeaders contextToken;
  payload ← new_object Plain
    {[ "salesChannelId" := salesChannelId; "shippingCosts" := shippingCosts ]};
  config ← requestConfig additionalParams headers;
  httpClient_patch route payload config.

(** The body shared by the two toggles: [const data = {}], then the
    guarded assignment of [salesChannelId]. *)
Definition promotionToggleData (additionalParams : value) : M value :=
  data ← new_object Plain ∅;
  if isActive "FEATURE_NEXT_10058" then
    salesChannelId ← get additionalParams "salesChannelId";
    set data "salesChannelId" salesChannelId
  else mret data.

Definition disableAutomaticPromotions (contextToken additionalParams additionalHeaders : value)
  : M request :=
  additionalParams ← default_object additionalParams;
  additionalHeaders ← default_object additionalHeaders;
  let route := "_proxy/disable-automatic-promotions" in
  headers ← contextHeaders additionalHeaders contextToken;
  data ← promotionToggleData additionalParams;
  config ← requestConfig additionalParams headers;
  httpClient_patch route data config.

Definition enableAutomaticPromotions (contextToken additionalParams additionalHeaders : value)
  : M request :=
  additionalParams ← default_object additionalParams;
  additionalHeaders ← default_object additionalHeaders;
  let route := "_proxy/enable-automatic-promotions" in
  headers ← contextHeaders additionalHeaders contextToken;
  data ← promotionToggleData additionalParams;
  config ← requestConfig additionalParams headers;
  httpClient_patch route data config.

(** The call an operation stands for. *)
Definition perform (op : cartOperation) : M request :=
  match op with
  | GetCart s t p h => getCart s t p h
  | CancelCart s t p h => cancelCart s t p h
  | RemoveLineItems s t keys p h => removeLineItems s t keys p h
  | SaveLineItem s t item p h => saveLineItem s t item p h
  | AddPromotionCode s t code p h => addPromotionCode s t code p h
  | ModifyShippingCosts s t costs h p => modifyShippingCosts s t costs h p
  | DisableAutomaticPromotions t p h => disableAutomaticPromotions t p h
  | EnableAutomaticPromotions t p h => enableAutomaticPromotions t p h
  end.

Definition toggleAutomaticPromotions (which : toggle) : value → value → value → M request :=
  match which with
  | Disable => disableAutomaticPromotions
  | Enable => enableAutomaticPromotions
  end.

End service.
End CartStoreService.

(** ** Reading a request back *)

(** The own property [k] of an object snapshot. *)
Definition own_prop (v : value) (k : string) : option value :=
  match v with
  | VObj _ _ props => props !! k
  | _ => None
  end.

(** [payload.items[0][k]]. *)
Definition payloadField (payload : value) (k : string) : option value :=
  items ← own_prop payload "items";
  lineItem ← own_prop items "0";
  own_prop lineItem k.

(** [payload.items[0][k]] of the body of a request. *)
Definition lineItemField (r : request) (k : string) : option value :=
  payload ← data r;
  payloadField payload k.

(** [config.headers[name]] of a request. *)
Definition header (r : request) (name : string) : option value :=
  headers ← own_prop (config r) "headers";
  own_prop headers name.

(** The own properties of the body of a request. *)
Definition bodyProps (r : request) : option (gmap string value) :=
  match data r with
  | Some (VObj _ _ props) => Some props
  | _ => None
  end.

(** ** The vocabulary of the properties *)

(** [item.price.unitPrice] and [item.priceDefinition.price]. *)
Definition unitPriceOf (item : value) : completion value :=
  price ← get_prop item "price";
  get_prop price "unitPrice".

Definition definedPriceOf (item : value) : completion value :=
  priceDefinition ← get_prop item "priceDefinition";
  get_prop priceDefinition "price".

(** [item.price.unitPrice !== item.priceDefinition.price] evaluates, and
    to true. *)
Definition priceDiffers (item : value) : Prop :=
  ∃ unitPrice definedPrice,
    unitPriceOf item = Normal unitPrice ∧
    definedPriceOf item = Normal definedPrice ∧
    strict_equals unitPrice definedPrice = false.

(** [item.price.unitPrice === item.priceDefinition.price] evaluates, and
    to true. *)
Definition priceAgrees (item : value) : Prop :=
  ∃ unitPrice definedPrice,
    unitPriceOf item = Normal unitPrice ∧
    definedPriceOf item = Normal definedPrice ∧
    strict_equals unitPrice definedPrice = true.

(** The item is newly created: [item._isNew] is truthy. *)
Definition isNew (item : value) : Prop :=
  ∃ flag, get_prop item "_isNew" = Normal flag ∧ to_boolean flag = true.

(** The item is not newly created: [item._isNew] is [false], or absent,
    or another falsy value. *)
Definition notNew (item : value) : Prop :=
  ∃ flag, get_prop item "_isNew" = Normal flag ∧ to_boolean flag = false.

(** [item.type === 'product']. *)
Definition isProduct (item : value) : Prop :=
  ∃ type, get_prop item "type" = Normal type ∧ strict_equals type (VStr "product") = true.

(** [deepCopyObject v] returns an object that is not frozen, in every
    state. *)
Definition copiesToObject (deepCopyObject : value → M value) (v : value) : Prop :=
  ∀ w, ∃ r c props w', returns (deepCopyObject v) w (VObj r c props) w' ∧ frozen r = false.

(** A property is present when the object has it, whatever its value. *)
Definition present (item : value) (k : string) : Prop :=
  is_Some (own_prop item k).

(** The value of the local constant [mapTypes] of
    [mapLineItemTypeToPriceType]. *)
Definition mapTypes : gmap string value :=
  <[ "credit" := VStr "absolute" ]>
    (<[ "custom" := VStr "quantity" ]>
       (<[ "product" := VStr "quantity" ]> ∅)).

(** A value that is not an object.  Converting a primitive to a string,
    as a template literal does, cannot throw; converting an object can,
    when the object has no usable [toString] and [valueOf]. *)
Definition primitive (v : value) : Prop :=
  match v with
  | VObj _ _ _ => False
  | _ => True
  end.

(** The payload of [item] can be built: the item is a new product, or its
    two prices can be read and agree, or they differ, the type of the
    item, which is then used as a key of [mapTypes], is a primitive, and
    the copy [deepCopyObject] makes of the stored price definition is an
    object that is not frozen. *)
Definition payloadReady (deepCopyObject : value → M value) (item : value) : Prop :=
  (isNew item ∧ isProduct item) ∨ priceAgrees item ∨
  (priceDiffers item ∧
   (∃ type, get_prop item "type" = Normal type ∧ primitive type) ∧
   ∃ stored, get_prop item "priceDefinition" = Normal stored ∧
             copiesToObject deepCopyObject stored).

(** The identifier [id] of the request [r] was generated by the call of
    [saveLineItem] that started in [w]: [createId] was called in [w1],
    the state the call reached once its two default parameters were
    bound, it returned [id], and the call went on from the state in
    which [createId] ended: after allocating the headers it built there
    the payload that [r] carries. *)
Definition generatedByCall (ToString : value → string) (deepCopyObject : value → M value)
    (createId : world → value * world)
    (salesChannelId item additionalParams additionalHeaders : value)
    (w w1 : world) (r : request) (id : value) : Prop :=
  ∃ params wa headers wleft isNewProductItem payload w2,
    returns (default_object additionalParams) w params wa ∧
    returns (default_object additionalHeaders) wa headers w1 ∧
    createId w1 = (id, wleft) ∧
    returns (CartStoreService.getPayloadForItem ToString deepCopyObject item salesChannelId
               isNewProductItem id) (bump wleft) payload w2 ∧
    data r = Some payload.

(** When an operation on an existing cart issues its request: the sales
    channel and the API version that go into a route are primitives; the
    payload of a line item can be built; a toggle is not given [null] for
    parameters while the feature is active. *)
Definition ready (getApiVersion : value) (deepCopyObject : value → M value)
    (isActive : string → bool) (op : cartOperation) : Prop :=
  match op with
  | GetCart salesChannelId _ _ _ | CancelCart salesChannelId _ _ _
  | RemoveLineItems salesChannelId _ _ _ _ | AddPromotionCode salesChannelId _ _ _ _ =>
      primitive salesChannelId ∧ primitive getApiVersion
  | SaveLineItem salesChannelId _ item _ _ =>
      primitive salesChannelId ∧ primitive getApiVersion ∧ payloadReady deepCopyObject item
  | ModifyShippingCosts _ _ _ _ _ => True
  | DisableAutomaticPromotions _ additionalParams _
  | EnableAutomaticPromotions _ additionalParams _ =>
      isActive "FEATURE_NEXT_10058" = false ∨ additionalParams ≠ VNull
  end.

(** [m] run in [w] throws a [TypeError]. *)
Definition throws {A} (m : M A) (w : world) : Prop :=
  ∃ w', m w = (Throw TypeError, w').

(** [v] is what a parameter declared [p = {}] is bound to when the
    argument is [arg]: the argument, or a fresh empty object when the
    argument is [undefined]. *)
Definition defaulted (arg v : value) : Prop :=
  match arg with
  | VUndefined => ∃ n, v = VObj (Loc n) Plain ∅
  | _ => v = arg
  end.

(** The own properties of an object snapshot. *)
Definition ownProps (v : value) : option (gmap string value) :=
  match v with
  | VObj _ _ props => Some props
  | _ => None
  end.

(** The headers and the parameters an operation was given. *)
Definition additionalHeadersOf (op : cartOperation) : value :=
  match op with
  | GetCart _ _ _ h | CancelCart _ _ _ h | RemoveLineItems _ _ _ _ h
  | SaveLineItem _ _ _ _ h | AddPromotionCode _ _ _ _ h | ModifyShippingCosts _ _ _ h _
  | DisableAutomaticPromotions _ _ h | EnableAutomaticPromotions _ _ h => h
  end.

Definition additionalParamsOf (op : cartOperation) : value :=
  match op with
  | GetCart _ _ p _ | CancelCart _ _ p _ | RemoveLineItems _ _ _ p _
  | SaveLineItem _ _ _ p _ | AddPromotionCode _ _ _ p _ | ModifyShippingCosts _ _ _ _ p
  | DisableAutomaticPromotions _ p _ | EnableAutomaticPromotions _ p _ => p
  end.

(** [h] is what an operation hands to [getBasicHeaders]: every operation
    declares [additionalHeaders = {}], except [modifyShippingCosts], which
    passes its argument on as it is. *)
Definition headersArgument (op : cartOperation) (h : value) : Prop :=
  match op with
  | ModifyShippingCosts _ _ _ additionalHeaders _ => h = additionalHeaders
  | _ => defaulted (additionalHeadersOf op) h
  end.

(** ** Fixtures

    Concrete collaborators and line items, used to run the service. *)
Module Fixture.

(** [ToString] on the values the fixtures substitute into a route or use
    as a key: the API version [3], and the words of the language.  Of the
    numbers only [3] and [NaN] are converted as the engine does; the
    fixtures convert no other number. *)
Definition ToString (v : value) : string :=
  match v with
  | VUndefined => "undefined"
  | VNull => "null"
  | VBool true => "true"
  | VBool false => "false"
  | VNum x => if PrimFloat.eqb x 3%float then "3" else "NaN"
  | VStr s => s
  | VObj _ _ _ => "[object Object]"
  end.

Definition getApiVersion : value := VNum 3%float.

Definition getBasicHeaders (additionalHeaders : value) : gmap string value :=
  match additionalHeaders with
  | VObj _ _ props => props
  | _ => ∅
  end ∪ {[ "Accept" := VStr "application/vnd.api+json";
           "Authorization" := VStr "Bearer token";
           "Content-Type" := VStr "application/json" ]}.

(** Modelled from the spec: the deep-copy utility [deepCopyObject] of
    [object.utils], which is not part of this file; it "produces a
    structurally independent copy of a nested object": the same
    properties all the way down, under fresh identities. *)
Fixpoint copy_from (v : value) (n : nat) : value * nat :=
  match v with
  | VObj _ c props =>
      let '(props', n') :=
        map_fold (λ k x acc, let '(x', n') := copy_from x acc.2 in (<[k := x']> acc.1, n'))
          (∅, n) props in
      (VObj (Loc n') c props', S n')
  | _ => (v, n)
  end.

Definition deepCopyObject (v : value) : M value :=
  λ w, let '(v', n) := copy_from v (next_loc w) in
       (Normal v', {| next_loc := n; id_seed := id_seed w |}).

Definition createId (w : world) : value * world :=
  (VStr ("generated-" +:+ pretty (id_seed w)),
   {| next_loc := next_loc w; id_seed := S (id_seed w) |}).

Definition isActive (flag : string) : bool := String.eqb flag "FEATURE_NEXT_10058".

Definition inactive (flag : string) : bool := false.

Definition w0 : world := {| next_loc := 100; id_seed := 7 |}.

Definition taxRules : value :=
  VObj (Loc 3) Array
    {[ "0" := VObj (Loc 4) Plain
                {[ "taxRate" := VNum 19%float; "percentage" := VNum 100%float ]};
       "length" := VNum 1%float ]}.

Definition priceDefinition (price : float) : value :=
  VObj (Loc 2) Plain
    {[ "price" := VNum price;
       "taxRules" := taxRules;
       "quantity" := VNum 1%float;
       "type" := VStr "quantity" ]}.

(** A line item of the cart. *)
Definition lineItem (isNew : value) (type : string) (unitPrice definedPrice : float) : value :=
  VObj (Loc 0) Plain
    {[ "_isNew" := isNew;
       "id" := VStr "0f3a";
       "identifier" := VStr "c9d1";
       "type" := VStr type;
       "label" := VStr "Blue shirt";
       "quantity" := VNum 2%float;
       "description" := VStr "cotton";
       "price" := VObj (Loc 1) Plain {[ "unitPrice" := VNum unitPrice ]};
       "priceDefinition" := priceDefinition definedPrice ]}.

(** [item] with its property [k] set to [x]. *)
Definition assign (item : value) (k : string) (x : value) : value :=
  match item with
  | VObj r c props => VObj r c (<[k := x]> props)
  | _ => item
  end.

Definition saveLineItem :=
  CartStoreService.saveLineItem ToString getApiVersion getBasicHeaders deepCopyObject createId.

Definition mapLineItemTypeToPriceType := CartStoreService.mapLineItemTypeToPriceType ToString.

Definition perform :=
  CartStoreService.perform ToString getApiVersion getBasicHeaders deepCopyObject createId
    isActive.

(** An existing product whose unit price was edited from 5 to 10. *)
Definition editedItem : value := lineItem (VBool false) "product" 10 5.

(** An existing product whose unit price is the stored one. *)
Definition unchangedItem : value := lineItem (VBool false) "product" 5 5.


Definition newCustomItem : value := lineItem (VBool true) "custom" 10 5.

(** An item whose [identifier] is present and empty. *)
Definition emptyIdentifierItem : value := assign editedItem "identifier" (VStr "").

(** An item whose [identifier] and [id] are both empty. *)
Definition anonymousItem : value := assign emptyIdentifierItem "id" (VStr "").

Definition salesChannelId : value := VStr "98432def39fc4624b33213a56b8c944d".

Definition contextToken : value := VStr "kQ2xR7".

Definition lineItemRoute : string :=
  "_proxy/store-api/98432def39fc4624b33213a56b8c944d/v3/checkout/cart/line-item".

(** The headers of a request of the fixtures, allocated at [Loc n]: no
    additional header was passed, so [getBasicHeaders] got the default
    [{}]. *)
Definition sentHeaders (n : nat) : value :=
  VObj (Loc n) Plain
    {[ "Accept" := VStr "application/vnd.api+json";
       "Authorization" := VStr "Bearer token";
       "Content-Type" := VStr "application/json";
       "sw-context-token" := contextToken ]}.

(** The price definition sent for an edited item: the copy of the stored
    one, with the tax rules of the original, the quantity of the item and
    the price type of its type. *)
Definition sentDefinition : value :=
  VObj (Loc 105) Plain
    {[ "price" := VNum 5%float;
       "taxRules" := taxRules;
       "quantity" := VNum 2%float;
       "type" := VStr "quantity" ]}.

(** The request [saveLineItem] issues in [w0] for a fixture item of type
    [type], when called without additional parameters and headers;
    [base] is the identity the line item of the payload gets. *)
Definition sentRequest (m : verb) (id : value) (type : string) (definition : value) (base : nat)
  : request :=
  {| method := m;
     route := lineItemRoute;
     data := Some
       (VObj (Loc (base + 2)) Plain
          {[ "items" :=
               VObj (Loc (base + 1)) Array
                 {[ "0" :=
                      VObj (Loc base) Plain
                        {[ "id" := id;
                           "referencedId" := id;
                           "label" := VStr "Blue shirt";
                           "quantity" := VNum 2%float;
                           "type" := VStr type;
                           "description" := VStr "cotton";
                           "priceDefinition" := definition;
                           "stackable" := VBool true;
                           "removable" := VBool true;
                           "salesChannelId" := salesChannelId ]};
                    "length" := VNum 1%float ]} ]});
     config :=
       VObj (Loc (base + 3)) Plain
         {[ "additionalParams" := VObj (Loc 100) Plain ∅;
            "headers" := sentHeaders 102 ]} |}.

(** The parameters passed to a toggle, and the request
    [enableAutomaticPromotions] issues in [w0] with them while the
    feature is active. *)
Definition toggleParams : value :=
  VObj (Loc 5) Plain {[ "salesChannelId" := salesChannelId ]}.

Definition enableRequest : request :=
  {| method := PATCH;
     route := "_proxy/enable-automatic-promotions";
     data := Some (VObj (Loc 102) Plain {[ "salesChannelId" := salesChannelId ]});
     config :=
       VObj (Loc 103) Plain
         {[ "additionalParams" := toggleParams;
            "headers" := sentHeaders 101 ]} |}.

(** The world after a call that allocated up to [n] and drew [k]
    identifiers. *)
Definition after (n k : nat) : world := {| next_loc := n; id_seed := 7 + k |}.

(** The request of saving [editedItem]. *)
Definition editedRequest : request :=
  sentRequest PATCH (VStr "c9d1") "product" sentDefinition 106.

(** [item] without its property [k]. *)
Definition remove (item : value) (k : string) : value :=
  match item with
  | VObj r c props => VObj r c (delete k props)
  | _ => item
  end.

(** An existing product that lost its [price]. *)
Definition pricelessItem : value := remove editedItem "price".

(** An identifier generator other than [createId], and a copy utility
    other than [deepCopyObject]. *)
Definition otherCreateId (w : world) : value * world := (VStr "another", w).

Definition otherDeepCopyObject (v : value) : M value := λ w, (Throw TypeError, w).

(** What [deepCopyObject] returns in [w0] for the price definition of the
    fixture items, once the three objects of a call without additional
    parameters and headers are allocated. *)
Definition copiedProps : gmap string value :=
  {[ "price" := VNum 5%float;
     "taxRules" :=
       VObj (Loc 104) Array
         {[ "0" := VObj (Loc 103) Plain
                     {[ "taxRate" := VNum 19%float; "percentage" := VNum 100%float ]};
            "length" := VNum 1%float ]};
     "quantity" := VNum 1%float;
     "type" := VStr "quantity" ]}.

(** One call of each operation on an existing cart, with the same
    context token. *)
Definition lineItemKeys : value :=
  VObj (Loc 6) Array {[ "0" := VStr "0f3a"; "length" := VNum 1%float ]}.

Definition shippingCosts : value :=
  VObj (Loc 7) Plain {[ "unitPrice" := VNum 5%float; "totalPrice" := VNum 5%float ]}.

Definition operations : list cartOperation :=
  [ GetCart salesChannelId contextToken VUndefined VUndefined;
    CancelCart salesChannelId contextToken VUndefined VUndefined;
    RemoveLineItems salesChannelId contextToken lineItemKeys VUndefined VUndefined;
    SaveLineItem salesChannelId contextToken editedItem VUndefined VUndefined;
    AddPromotionCode salesChannelId contextToken (VStr "SUMMER") VUndefined VUndefined;
    ModifyShippingCosts salesChannelId contextToken shippingCosts VUndefined VUndefined;
    DisableAutomaticPromotions contextToken toggleParams VUndefined;
    EnableAutomaticPromotions contextToken toggleParams VUndefined ].

(** The requests of saving [emptyIdentifierItem] and [anonymousItem]. *)
Definition emptyIdentifierRequest : request :=
  sentRequest PATCH (VStr "0f3a") "product" sentDefinition 106.

Definition anonymousRequest : request :=
  sentRequest PATCH (VStr "generated-7") "product" sentDefinition 106.

(** The cart route of the fixtures. *)
Definition cartRoute : string :=
  "_proxy/store-api/98432def39fc4624b33213a56b8c944d/v3/checkout/cart".

End Fixture.

(** ** Reasoning about runs *)

Lemma returns_ret {A} (a b : A) (w w' : world) :
  returns (mret a) w b w' ↔ b = a ∧ w' = w.
Proof. unfold returns, mret, M_ret. split; [intros [= -> ->] | intros [-> ->]]; done. Qed.

Lemma returns_bind {A B} (m : M A) (k : A → M B) (w : world) (b : B) (w' : world) :
  returns (m ≫= k) w b w' ↔ ∃ a w1, returns m w a w1 ∧ returns (k a) w1 b w'.
Proof.
  unfold returns, mbind, M_bind. split.
  - destruct (m w) as [[a|e] w1]; [eauto | discriminate].
  - intros (a & w1 & -> & Hk). done.
Qed.

Lemma returns_lift {A} (c : completion A) (w : world) (a : A) (w' : world) :
  returns (lift c) w a w' ↔ c = Normal a ∧ w' = w.
Proof. unfold returns, lift. split; [intros [= -> ->] | intros [-> ->]]; done. Qed.

Lemma returns_get (v : value) (k : string) (w : world) (a : value) (w' : world) :
  returns (get v k) w a w' ↔ get_prop v k = Normal a ∧ w' = w.
Proof. apply returns_lift. Qed.

Lemma returns_set (v : value) (k : string) (x : value) (w : world) (a : value) (w' : world) :
  returns (set v k x) w a w' ↔ set_prop v k x = Normal a ∧ w' = w.
Proof. apply returns_lift. Qed.

Lemma returns_new_object (c : class) (props : gmap string value) (w : world) (a : value)
    (w' : world) :
  returns (new_object c props) w a w' ↔ a = VObj (Loc (next_loc w)) c props ∧ w' = bump w.
Proof. unfold returns, new_object. split; [intros [= <- <-] | intros [-> ->]]; done. Qed.

Lemma returns_default_object (arg : value) (w : world) (a : value) (w' : world) :
  returns (default_object arg) w a w' ↔
    (arg = VUndefined ∧ a = VObj (Loc (next_loc w)) Plain ∅ ∧ w' = bump w) ∨
    (arg ≠ VUndefined ∧ a = arg ∧ w' = w).
Proof.
  destruct arg; simpl; rewrite ?returns_new_object, ?returns_ret;
    (split; [intros [-> ->]; (by left) || (by right) | intros [(? & -> & ->) | (? & -> & ->)]]);
    done.
Qed.

Lemma default_object_returns (arg : value) (w : world) :
  ∃ a w', returns (default_object arg) w a w'.
Proof. destruct arg; simpl; unfold returns, new_object, mret, M_ret; eauto. Qed.

Lemma set_prop_Normal (v : value) (k : string) (x a : value) :
  set_prop v k x = Normal a ↔
    ∃ r c props, v = VObj r c props ∧ frozen r = false ∧ a = VObj r c (<[k := x]> props).
Proof.
  split.
  - destruct v as [| | | | |r c props]; simpl; try discriminate.
    destruct (frozen r) eqn:Hr; [discriminate|]. intros [= <-]. by eexists _, _, _.
  - intros (r & c & props & -> & Hr & ->). simpl. by rewrite Hr.
Qed.

Lemma runs_bind {A B} (m : M A) (k : A → M B) (w : world) :
  (∃ a w1, returns m w a w1 ∧ runs (k a) w1) → runs (m ≫= k) w.
Proof.
  intros (a & w1 & Hm & b & w' & Hk). exists b, w'. apply returns_bind. eauto.
Qed.

Lemma runs_default_object (arg : value) (w : world) : runs (default_object arg) w.
Proof. apply default_object_returns. Qed.

(** Splitting the hypotheses that a sequence of statements returns. *)
Ltac run_all :=
  repeat match goal with
    | H : returns (_ ≫= _) _ _ _ |- _ =>
        apply returns_bind in H; destruct H as (? & ? & ? & H); cbv beta in H
    | H : returns (mret _) _ _ _ |- _ => apply returns_ret in H; destruct H as [? ?]; subst
    | H : returns (get _ _) _ _ _ |- _ => apply returns_get in H; destruct H as [H ?]; subst
    | H : returns (set _ _ _) _ _ _ |- _ => apply returns_set in H; destruct H as [H ?]; subst
    | H : returns (new_object _ _) _ _ _ |- _ =>
        apply returns_new_object in H; destruct H as [? ?]; subst
    | H : returns (new_array1 _) _ _ _ |- _ =>
        apply returns_new_object in H; destruct H as [? ?]; subst
    end.

(** Running a sequence of statements forwards, one statement at a time. *)
Ltac step :=
  apply returns_bind; eexists _, _; split;
  [ first [ apply returns_get; split; [eassumption | reflexivity]
          | apply returns_set; split; [apply set_prop_Normal; by eexists _, _, _ | reflexivity]
          | apply returns_new_object; split; reflexivity
          | apply returns_ret; split; reflexivity
          | eassumption
          | unfold returns; reflexivity ]
  | cbv beta ].

(** Showing that a sequence of statements returns, one statement at a
    time. *)
Ltac advance :=
  apply runs_bind; eexists _, _; split;
  [ first [ apply returns_get; split; [eassumption | reflexivity]
          | apply returns_set; split; [apply set_prop_Normal; by eexists _, _, _ | reflexivity]
          | apply returns_new_object; split; reflexivity
          | apply returns_ret; split; reflexivity
          | eassumption
          | unfold returns; reflexivity ]
  | cbv beta ].

Section properties.

Set Default Proof Using "Type".

Variable ToString : value → string.
Variable getApiVersion : value.
Variable getBasicHeaders : value → gmap string value.
Variable deepCopyObject : value → M value.
Variable createId : world → value * world.
Variable isActive : string → bool.

Abbreviation to_string := (CartStoreService.to_string ToString).
Abbreviation mapLineItemTypeToPriceType := (CartStoreService.mapLineItemTypeToPriceType ToString).
Abbreviation getPayloadForItem :=
  (CartStoreService.getPayloadForItem ToString deepCopyObject).
Abbreviation saveLineItem :=
  (CartStoreService.saveLineItem ToString getApiVersion getBasicHeaders deepCopyObject createId).
Abbreviation perform :=
  (CartStoreService.perform ToString getApiVersion getBasicHeaders deepCopyObject createId
     isActive).
Abbreviation toggleAutomaticPromotions :=
  (CartStoreService.toggleAutomaticPromotions getBasicHeaders isActive).

(** [mapLineItemTypeToPriceType] reads no state and never throws: it is
    the lookup of the key of its argument in [mapTypes]. *)
Lemma mapLineItemTypeToPriceType_lookup (itemType : value) (w : world) :
  mapLineItemTypeToPriceType itemType w = (Normal (get_computed mapTypes (to_string itemType)), w).
Proof. reflexivity. Qed.

Lemma get_prop_any (v : value) (k k' : string) (a : value) :
  get_prop v k = Normal a → ∃ a', get_prop v k' = Normal a'.
Proof. destruct v; simpl; intros [= <-]; eauto. Qed.

Lemma returns_mapLineItemTypeToPriceType (itemType : value) (w : world) (a : value) (w' : world) :
  returns (mapLineItemTypeToPriceType itemType) w a w' ↔
    a = get_computed mapTypes (to_string itemType) ∧ w' = w.
Proof.
  unfold returns. rewrite mapLineItemTypeToPriceType_lookup.
  split; [intros [= <- <-] | intros [-> ->]]; done.
Qed.

(** Two reads of the same property give the same value. *)
Ltac same_reads :=
  repeat match goal with
    | H1 : ?x = Normal ?a, H2 : ?x = Normal ?b |- _ =>
        assert (b = a) by congruence; subst b; clear H2
    end.

Lemma prices_read (item price unitPrice priceDefinition definedPrice : value) :
  get_prop item "price" = Normal price →
  get_prop price "unitPrice" = Normal unitPrice →
  get_prop item "priceDefinition" = Normal priceDefinition →
  get_prop priceDefinition "price" = Normal definedPrice →
  unitPriceOf item = Normal unitPrice ∧ definedPriceOf item = Normal definedPrice.
Proof.
  intros H1 H2 H3 H4. unfold unitPriceOf, definedPriceOf. rewrite H1, H3. simpl. done.
Qed.

(** What [getPayloadForItem] returns: the line item carries [id] twice,
    and a price definition that is [null] unless the item is not a new
    product and its two prices differ. *)
Lemma getPayloadForItem_inv (item salesChannelId isNewProductItem id : value) (w : world)
    (payload : value) (w' : world) :
  returns (getPayloadForItem item salesChannelId isNewProductItem id) w payload w' →
  ∃ dummyPrice,
    payloadField payload "priceDefinition" = Some dummyPrice ∧
    payloadField payload "id" = Some id ∧
    payloadField payload "referencedId" = Some id ∧
    (to_boolean isNewProductItem = true → dummyPrice = VNull) ∧
    (to_boolean isNewProductItem = false →
       (priceAgrees item ∧ dummyPrice = VNull) ∨
       (priceDiffers item ∧
        ∃ r c props quantity type,
          get_prop item "quantity" = Normal quantity ∧
          get_prop item "type" = Normal type ∧
          dummyPrice = VObj r c props ∧
          props !! "quantity" = Some quantity ∧
          props !! "type" = Some (get_computed mapTypes (to_string type)))).
Proof.
  unfold CartStoreService.getPayloadForItem. intros H.
  apply returns_bind in H. destruct H as (dummyPrice & w1 & Hdummy & H). cbv beta in H.
  run_all. exists dummyPrice. split_and!; try reflexivity.
  - intros Hnew. rewrite Hnew in Hdummy. simpl in Hdummy. by run_all.
  - intros Hnew. rewrite Hnew in Hdummy. simpl in Hdummy. run_all.
    match goal with H : returns (if ?b then _ else _) _ _ _ |- _ => destruct b eqn:Hcmp end.
    + right. apply negb_true_iff in Hcmp. run_all.
      repeat match goal with
        | H : returns (mapLineItemTypeToPriceType _) _ _ _ |- _ =>
            apply returns_mapLineItemTypeToPriceType in H; destruct H as [-> ->]
        | H : set_prop _ _ _ = Normal _ |- _ =>
            apply set_prop_Normal in H; destruct H as (? & ? & ? & -> & ? & ?)
        end.
      simplify_eq. same_reads. split.
      * eexists _, _. split_and!; [eapply prices_read; eassumption.. | done].
      * eexists _, _, _, _, _. split_and!; try eassumption; try reflexivity.
        -- rewrite lookup_insert_ne by done. apply lookup_insert_eq.
        -- apply lookup_insert_eq.
    + left. apply negb_false_iff in Hcmp. run_all. split; [|done].
      eexists _, _. split_and!; [eapply prices_read; eassumption.. | done].
Qed.

Lemma unitPriceOf_Normal (item unitPrice : value) :
  unitPriceOf item = Normal unitPrice →
  ∃ price, get_prop item "price" = Normal price ∧ get_prop price "unitPrice" = Normal unitPrice.
Proof.
  unfold unitPriceOf. destruct (get_prop item "price") as [price|] eqn:H; [|done]. eauto.
Qed.

Lemma definedPriceOf_Normal (item definedPrice : value) :
  definedPriceOf item = Normal definedPrice →
  ∃ priceDefinition,
    get_prop item "priceDefinition" = Normal priceDefinition ∧
    get_prop priceDefinition "price" = Normal definedPrice.
Proof.
  unfold definedPriceOf.
  destruct (get_prop item "priceDefinition") as [priceDefinition|] eqn:H; [|done]. eauto.
Qed.

(** [getPayloadForItem] returns for an item that is an object, when the
    price definition is not needed, or the prices agree, or they differ
    and the copy of the price definition is an object. *)
Lemma getPayloadForItem_returns (item salesChannelId isNewProductItem id : value) (w : world) :
  (∃ k a, get_prop item k = Normal a) →
  to_boolean isNewProductItem = true ∨ priceAgrees item ∨
    (priceDiffers item ∧
     ∃ pd, get_prop item "priceDefinition" = Normal pd ∧ copiesToObject deepCopyObject pd) →
  ∃ payload w', returns (getPayloadForItem item salesChannelId isNewProductItem id) w payload w'.
Proof.
  intros (k0 & a0 & Hitem) Hcase.
  destruct (get_prop_any _ _ "label" _ Hitem) as [label Hlabel].
  destruct (get_prop_any _ _ "quantity" _ Hitem) as [quantity Hquantity].
  destruct (get_prop_any _ _ "type" _ Hitem) as [type Htype].
  destruct (get_prop_any _ _ "description" _ Hitem) as [description Hdescription].
  unfold CartStoreService.getPayloadForItem.
  destruct (to_boolean isNewProductItem) eqn:Hnew; simpl.
  { eexists _, _. repeat step. apply returns_new_object. done. }
  destruct Hcase as [? | [(u & p & Hu & Hp & Hcmp) | [(u & p & Hu & Hp & Hcmp) Hcopy]]]; [done | |].
  - apply unitPriceOf_Normal in Hu as (price & Hprice & Hunit).
    apply definedPriceOf_Normal in Hp as (pd & Hpd & Hdefined).
    eexists _, _. apply returns_bind. eexists _, _. split.
    { repeat step. rewrite Hcmp. simpl. apply returns_ret. done. }
    cbv beta. repeat step. apply returns_new_object. done.
  - apply unitPriceOf_Normal in Hu as (price & Hprice & Hunit).
    apply definedPriceOf_Normal in Hp as (pd & Hpd & Hdefined).
    destruct Hcopy as (pd' & Hpd' & Hcopy). same_reads.
    destruct (Hcopy w) as (r & c & props & w1 & Hc & Hr).
    destruct (get_prop_any _ _ "taxRules" _ Hdefined) as [taxRules HtaxRules].
    eexists _, _. apply returns_bind. eexists _, _. split.
    { repeat step. rewrite Hcmp. simpl. repeat step. apply returns_set.
      split; [apply set_prop_Normal; by eexists _, _, _ | done]. }
    cbv beta. repeat step. apply returns_new_object. done.
Qed.

Lemma returns_utils_createId (w : world) (a : value) (w' : world) :
  returns (CartStoreService.utils_createId createId) w a w' ↔ createId w = (a, w').
Proof.
  unfold returns, CartStoreService.utils_createId. destruct (createId w) as [v w1].
  split; [intros [= -> ->] | intros [= -> ->]]; done.
Qed.

(** The route of the line items of a sales channel. *)
Lemma returns_getRouteForItem (id salesChannelId : value) (w : world) (a : string) (w' : world) :
  returns (CartStoreService.getRouteForItem ToString getApiVersion id salesChannelId) w a w' ↔
    a = "_proxy/store-api/" +:+ to_string salesChannelId +:+ "/v" +:+ to_string getApiVersion
          +:+ "/checkout/cart/line-item" ∧ w' = w.
Proof. apply returns_ret. Qed.

(** Everything a call of [saveLineItem] that returns has done. *)
Lemma saveLineItem_inv (salesChannelId contextToken item additionalParams additionalHeaders : value)
    (w : world) (r : request) (w' : world) :
  returns (saveLineItem salesChannelId contextToken item additionalParams additionalHeaders) w r w' →
  ∃ flag isNewProductItem identifier id payload w1 w2,
    get_prop item "_isNew" = Normal flag ∧
    (if to_boolean flag
     then ∃ type, get_prop item "type" = Normal type ∧
                  isNewProductItem = VBool (strict_equals type (VStr "product"))
     else isNewProductItem = flag) ∧
    get_prop item "identifier" = Normal identifier ∧
    (if to_boolean identifier then id = identifier
     else ∃ itemId, get_prop item "id" = Normal itemId ∧
                    if to_boolean itemId then id = itemId
                    else ∃ wi, id = (createId wi).1) ∧
    returns (getPayloadForItem item salesChannelId isNewProductItem id) w1 payload w2 ∧
    method r = (if to_boolean flag then POST else PATCH) ∧
    route r = "_proxy/store-api/" +:+ to_string salesChannelId +:+ "/v"
                +:+ to_string getApiVersion +:+ "/checkout/cart/line-item" ∧
    data r = Some payload ∧
    header r "sw-context-token" = Some contextToken.
Proof.
  unfold CartStoreService.saveLineItem, CartStoreService.contextHeaders,
    CartStoreService.requestConfig. intros H.
  apply returns_bind in H as (params & wa & _ & H). cbv beta in H.
  apply returns_bind in H as (headers & wb & _ & H). cbv beta in H.
  apply returns_bind in H as (flag & ? & Hflag & H). cbv beta in H.
  apply returns_get in Hflag as [Hflag ->].
  apply returns_bind in H as (isNewProductItem & wc & Hnew & H). cbv beta in H.
  apply returns_bind in H as (identifier & ? & Hidentifier & H). cbv beta in H.
  apply returns_get in Hidentifier as [Hidentifier ->].
  apply returns_bind in H as (id & wd & Hid & H). cbv beta in H.
  apply returns_bind in H as (route & ? & Hroute & H). cbv beta in H.
  apply returns_getRouteForItem in Hroute as [-> ->].
  apply returns_bind in H as (hdrs & ? & Hhdrs & H). cbv beta in H.
  apply returns_new_object in Hhdrs as [-> ->].
  apply returns_bind in H as (payload & we & Hpayload & H). cbv beta in H.
  apply returns_bind in H as (flag' & ? & Hflag' & H). cbv beta in H.
  apply returns_get in Hflag' as [Hflag' ->].
  apply returns_bind in H as (config & ? & Hconfig & H). cbv beta in H.
  apply returns_new_object in Hconfig as [-> ->].
  same_reads.
  assert (if to_boolean flag
          then ∃ type, get_prop item "type" = Normal type ∧
                       isNewProductItem = VBool (strict_equals type (VStr "product"))
          else isNewProductItem = flag) as Hnew'.
  { destruct (to_boolean flag); unfold CartStoreService.getLineItemTypes in Hnew; run_all;
      [|done].
    match goal with H : get_prop lineItemConstants_types _ = _ |- _ =>
      vm_compute in H; injection H as <- end.
    eauto. }
  assert (if to_boolean identifier then id = identifier
          else ∃ itemId, get_prop item "id" = Normal itemId ∧
                         if to_boolean itemId then id = itemId
                         else ∃ wi, id = (createId wi).1) as Hid'.
  { destruct (to_boolean identifier); run_all; [done|].
    eexists. split; [eassumption|].
    match goal with |- if ?b then _ else _ => destruct b end; run_all; [done|].
    apply returns_utils_createId in Hid. eexists. by rewrite Hid. }
  exists flag, isNewProductItem, identifier, id, payload. eexists _, _.
  split_and!; try eassumption;
    destruct (to_boolean flag); apply returns_ret in H as [-> ->]; try reflexivity;
    unfold header; simpl; by simplify_map_eq.
Qed.

Lemma runs_ret {A} (a : A) (w : world) : runs (mret a) w.
Proof. exists a, w. by apply returns_ret. Qed.

(** [saveLineItem] issues a request for an item whose payload can be
    built: a new product, or an item whose two prices can be read and
    agree, or differ while the copy of the price definition is an
    object. *)
Lemma saveLineItem_runs (salesChannelId contextToken item additionalParams additionalHeaders : value)
    (w : world) :
  (isNew item ∧ isProduct item) ∨ priceAgrees item ∨
    (priceDiffers item ∧
     ∃ pd, get_prop item "priceDefinition" = Normal pd ∧ copiesToObject deepCopyObject pd) →
  runs (saveLineItem salesChannelId contextToken item additionalParams additionalHeaders) w.
Proof.
  intros Hcase.
  assert (∃ k a, get_prop item k = Normal a) as Hitem.
  { destruct Hcase as [[(flag & Hflag & _) _] | [(u & _ & Hu & _) | [(u & _ & Hu & _) _]]];
      [eauto | apply unitPriceOf_Normal in Hu as (? & ? & _); eauto..]. }
  destruct Hitem as (k0 & a0 & Hitem).
  destruct (get_prop_any _ _ "_isNew" _ Hitem) as [flag Hflag].
  destruct (get_prop_any _ _ "type" _ Hitem) as [type Htype].
  destruct (get_prop_any _ _ "identifier" _ Hitem) as [identifier Hidentifier].
  destruct (get_prop_any _ _ "id" _ Hitem) as [itemId HitemId].
  assert (∀ isNewProductItem,
            (if to_boolean flag then isNewProductItem = VBool (strict_equals type (VStr "product"))
             else isNewProductItem = flag) →
            ∀ id w1, runs (getPayloadForItem item salesChannelId isNewProductItem id) w1)
    as Hpayload.
  { intros inp Hinp id w1. apply getPayloadForItem_returns; [eauto|].
    destruct Hcase as [[(flag' & Hflag' & Htrue) (type' & Htype' & Hproduct)] | [? | ?]];
      [left | right; by left | right; by right].
    same_reads. rewrite Htrue in Hinp. subst inp. simpl. done. }
  unfold CartStoreService.saveLineItem, CartStoreService.contextHeaders,
    CartStoreService.requestConfig, CartStoreService.getLineItemTypes,
    CartStoreService.getRouteForItem.
  apply runs_bind. destruct (runs_default_object additionalParams w) as (params & wa & Ha).
  exists params, wa. split; [done|]. cbv beta.
  apply runs_bind. destruct (runs_default_object additionalHeaders wa) as (headers & wb & Hb).
  exists headers, wb. split; [done|]. cbv beta.
  advance.
  apply runs_bind.
  exists (if to_boolean flag then VBool (strict_equals type (VStr "product")) else flag), wb.
  split.
  { destruct (to_boolean flag); [repeat step | ]; by apply returns_ret. }
  cbv beta. advance.
  apply runs_bind.
  exists (if to_boolean identifier then identifier
          else if to_boolean itemId then itemId else (createId wb).1),
         (if to_boolean identifier then wb
          else if to_boolean itemId then wb else (createId wb).2).
  split.
  { destruct (to_boolean identifier); [by apply returns_ret|]. step.
    destruct (to_boolean itemId); [by apply returns_ret|].
    apply returns_utils_createId. by destruct (createId wb). }
  cbv beta. do 2 advance.
  match goal with
  | |- runs (getPayloadForItem _ _ ?inp ?id ≫= _) ?w1 =>
      destruct (Hpayload inp (ltac:(by destruct (to_boolean flag))) id w1) as (payload & w2 & Hp)
  end.
  apply runs_bind. exists payload, w2. split; [done|]. cbv beta.
  do 2 advance.
  destruct (to_boolean flag); apply runs_ret.
Qed.

Lemma priceAgrees_not_priceDiffers (item : value) : priceAgrees item → priceDiffers item → False.
Proof.
  intros (u & p & Hu & Hp & Heq) (u' & p' & Hu' & Hp' & Hne). same_reads. congruence.
Qed.

Lemma lineItemField_data (r : request) (payload : value) (k : string) :
  data r = Some payload → lineItemField r k = payloadField payload k.
Proof. unfold lineItemField. by intros ->. Qed.

(** The three ways the price definition of a request of [saveLineItem]
    comes about. *)
Lemma saveLineItem_priceDefinition_cases
    (salesChannelId contextToken item additionalParams additionalHeaders : value)
    (w : world) (r : request) (w' : world) :
  returns (saveLineItem salesChannelId contextToken item additionalParams additionalHeaders) w r w' →
  ∃ priceDefinition,
    lineItemField r "priceDefinition" = Some priceDefinition ∧
    ((isNew item ∧ isProduct item ∧ priceDefinition = VNull) ∨
     (¬ (isNew item ∧ isProduct item) ∧ priceAgrees item ∧ priceDefinition = VNull) ∨
     (¬ (isNew item ∧ isProduct item) ∧ priceDiffers item ∧
      ∃ ref c props quantity type,
        get_prop item "quantity" = Normal quantity ∧
        get_prop item "type" = Normal type ∧
        priceDefinition = VObj ref c props ∧
        props !! "quantity" = Some quantity ∧
        props !! "type" = Some (get_computed mapTypes (to_string type)))).
Proof.
  intros H. apply saveLineItem_inv in H
    as (flag & inp & identifier & id & payload & w1 & w2 & Hflag & Hinp & _ & _ & Hpayload & _ & _
        & Hdata & _).
  apply getPayloadForItem_inv in Hpayload as (pd & Hpd & _ & _ & Hnew & Hold).
  exists pd. split; [by rewrite (lineItemField_data _ _ _ Hdata)|].
  assert (to_boolean inp = true ↔ isNew item ∧ isProduct item) as Hiff.
  { destruct (to_boolean flag) eqn:Htruthy.
    - destruct Hinp as (type & Htype & ->). simpl. split.
      + intros Heq. split; [by exists flag | by exists type].
      + intros [_ (type' & Htype' & Heq)]. same_reads. done.
    - subst inp. split; [congruence|]. intros [(flag' & Hflag' & Htrue) _]. same_reads.
      congruence. }
  destruct (to_boolean inp) eqn:Htruthy.
  - left. destruct Hiff as [Hiff _]. destruct (Hiff eq_refl). auto.
  - right. assert (¬ (isNew item ∧ isProduct item)) as Hnot.
    { intros Hboth. apply Hiff in Hboth. done. }
    destruct (Hold eq_refl) as [[Hagree ->] | [Hdiffer Hobject]]; [left | right]; done.
Qed.

(** C1 (as amended).  In the payload of a request that [saveLineItem]
    issues, [priceDefinition] is non-null if and only if the item is not a
    new product item (it is not both newly created and of type
    ['product']) and [item.price.unitPrice !== item.priceDefinition.price]. *)
Theorem saveLineItem_priceDefinition_iff
    (salesChannelId contextToken item additionalParams additionalHeaders : value)
    (w : world) (r : request) (w' : world) :
  returns (saveLineItem salesChannelId contextToken item additionalParams additionalHeaders) w r w' →
  ∃ priceDefinition,
    lineItemField r "priceDefinition" = Some priceDefinition ∧
    (priceDefinition ≠ VNull ↔ ¬ (isNew item ∧ isProduct item) ∧ priceDiffers item).
Proof.
  intros H. apply saveLineItem_priceDefinition_cases in H as (pd & Hpd & Hcases).
  exists pd. split; [done|].
  destruct Hcases as [(Hnew & Hproduct & ->) | [(Hnot & Hagree & ->) | (Hnot & Hdiffer & Hobject)]].
  - split; [done|]. intros [Hnot _]. by destruct Hnot.
  - split; [done|]. intros [_ Hdiffer]. by destruct (priceAgrees_not_priceDiffers item).
  - destruct Hobject as (ref & c & props & _ & _ & _ & _ & -> & _). done.
Qed.




(** [saveLineItem] issues a request when the payload of the item can be
    built. *)
Lemma saveLineItem_issues
    (salesChannelId contextToken item additionalParams additionalHeaders : value) (w : world) :
  payloadReady deepCopyObject item →
  runs (saveLineItem salesChannelId contextToken item additionalParams additionalHeaders) w.
Proof.
  intros [Hnew | [Hagree | (Hdiffer & _ & Hcopy)]]; apply saveLineItem_runs; auto.
Qed.

(** What a call of [saveLineItem] that generates the identifier has
    done. *)
Lemma saveLineItem_generated
    (salesChannelId contextToken item additionalParams additionalHeaders : value)
    (w : world) (r : request) (w' : world) (identifier itemId : value) :
  returns (saveLineItem salesChannelId contextToken item additionalParams additionalHeaders) w r w' →
  get_prop item "identifier" = Normal identifier →
  get_prop item "id" = Normal itemId →
  to_boolean identifier = false →
  to_boolean itemId = false →
  ∃ id w1,
    generatedByCall ToString deepCopyObject createId salesChannelId item additionalParams
      additionalHeaders w w1 r id ∧
    lineItemField r "id" = Some id ∧
    lineItemField r "referencedId" = Some id.
Proof.
  unfold CartStoreService.saveLineItem, CartStoreService.contextHeaders,
    CartStoreService.requestConfig. intros H Hidentifier HitemId Hfalse Hfalse'.
  apply returns_bind in H as (params & wa & Hparams & H). cbv beta in H.
  apply returns_bind in H as (headers & w1 & Hheaders & H). cbv beta in H.
  apply returns_bind in H as (flag & ? & Hflag & H). cbv beta in H.
  apply returns_get in Hflag as [Hflag ->].
  apply returns_bind in H as (isNewProductItem & wc & Hnew & H). cbv beta in H.
  assert (wc = w1) as ->.
  { destruct (to_boolean flag); unfold CartStoreService.getLineItemTypes in Hnew; by run_all. }
  apply returns_bind in H as (identifier' & ? & Hidentifier' & H). cbv beta in H.
  apply returns_get in Hidentifier' as [Hidentifier' ->].
  apply returns_bind in H as (id & wleft & Hid & H). cbv beta in H.
  same_reads. rewrite Hfalse in Hid.
  apply returns_bind in Hid as (itemId' & ? & HitemId' & Hid). cbv beta in Hid.
  apply returns_get in HitemId' as [HitemId' ->].
  same_reads. rewrite Hfalse' in Hid. apply returns_utils_createId in Hid.
  apply returns_bind in H as (route & ? & Hroute & H). cbv beta in H.
  apply returns_getRouteForItem in Hroute as [-> ->].
  apply returns_bind in H as (hdrs & ? & Hhdrs & H). cbv beta in H.
  apply returns_new_object in Hhdrs as [-> ->].
  apply returns_bind in H as (payload & w2 & Hpayload & H). cbv beta in H.
  apply returns_bind in H as (flag' & ? & Hflag' & H). cbv beta in H.
  apply returns_get in Hflag' as [Hflag' ->].
  apply returns_bind in H as (config & ? & Hconfig & H). cbv beta in H.
  apply returns_new_object in Hconfig as [-> ->].
  assert (data r = Some payload) as Hdata.
  { destruct (to_boolean flag'); by apply returns_ret in H as [-> ->]. }
  exists id, w1. split_and!.
  - by exists params, wa, headers, wleft, isNewProductItem, payload, w2.
  - apply getPayloadForItem_inv in Hpayload as (? & _ & Hpid & _).
    by rewrite (lineItemField_data _ _ _ Hdata).
  - apply getPayloadForItem_inv in Hpayload as (? & _ & _ & Hpref & _).
    by rewrite (lineItemField_data _ _ _ Hdata).
Qed.

(** C5.  [saveLineItem] issues a POST exactly when [item._isNew] is true
    (truthy) and a PATCH otherwise, in both cases to the line-item route
    of the sales channel, which does not depend on the item: every
    request it issues is so, and it does issue the request, a POST for a
    new item and a PATCH for another, when the payload of the item can be
    built and the sales channel and the API version are primitives. *)
Theorem saveLineItem_method_and_route
    (salesChannelId contextToken item additionalParams additionalHeaders : value) (w : world) :
  (∀ r w',
     returns (saveLineItem salesChannelId contextToken item additionalParams additionalHeaders)
       w r w' →
     (method r = POST ↔ isNew item) ∧
     (method r = PATCH ↔ notNew item) ∧
     route r = "_proxy/store-api/" +:+ to_string salesChannelId +:+ "/v"
                 +:+ to_string getApiVersion +:+ "/checkout/cart/line-item") ∧
  (primitive salesChannelId → primitive getApiVersion → payloadReady deepCopyObject item →
   (isNew item →
    ∃ r w',
      returns (saveLineItem salesChannelId contextToken item additionalParams additionalHeaders)
        w r w' ∧
      method r = POST ∧
      route r = "_proxy/store-api/" +:+ to_string salesChannelId +:+ "/v"
                  +:+ to_string getApiVersion +:+ "/checkout/cart/line-item") ∧
   (notNew item →
    ∃ r w',
      returns (saveLineItem salesChannelId contextToken item additionalParams additionalHeaders)
        w r w' ∧
      method r = PATCH ∧
      route r = "_proxy/store-api/" +:+ to_string salesChannelId +:+ "/v"
                  +:+ to_string getApiVersion +:+ "/checkout/cart/line-item")).
Proof.
  assert (∀ r w',
     returns (saveLineItem salesChannelId contextToken item additionalParams additionalHeaders)
       w r w' →
     (method r = POST ↔ isNew item) ∧
     (method r = PATCH ↔ notNew item) ∧
     route r = "_proxy/store-api/" +:+ to_string salesChannelId +:+ "/v"
                 +:+ to_string getApiVersion +:+ "/checkout/cart/line-item") as Hissued.
  { intros r w' H. apply saveLineItem_inv in H
      as (flag & inp & identifier & id & payload & w1 & w2 & Hflag & _ & _ & _ & _ & Hmethod
          & Hroute & _).
    split_and!; [| | done]; rewrite Hmethod.
    - split.
      + intros Hpost. exists flag. split; [done|]. by destruct (to_boolean flag).
      + intros (flag' & Hflag' & Htrue). same_reads. by rewrite Htrue.
    - split.
      + intros Hpatch. exists flag. split; [done|]. by destruct (to_boolean flag).
      + intros (flag' & Hflag' & Hfalse). same_reads. by rewrite Hfalse. }
  split; [done|]. intros _ _ Hready.
  destruct (saveLineItem_issues salesChannelId contextToken item additionalParams
              additionalHeaders w Hready) as (r & w' & Hr).
  destruct (Hissued r w' Hr) as (Hpost & Hpatch & Hroute).
  split; intros Hflag; exists r, w'; (split_and!; [done | | done]).
  - by apply Hpost.
  - by apply Hpatch.
Qed.

(** C6 (as amended).  [mapLineItemTypeToPriceType] returns ['quantity']
    for ['product'] and for ['custom'], ['absolute'] for ['credit'],
    [undefined] for ['promotion'], and [undefined] for any other input
    whose key is neither a mapped type nor the name of a property that
    an object inherits from [Object.prototype]. *)
Theorem mapLineItemTypeToPriceType_values (w : world) :
  returns (mapLineItemTypeToPriceType (VStr "product")) w (VStr "quantity") w ∧
  returns (mapLineItemTypeToPriceType (VStr "custom")) w (VStr "quantity") w ∧
  returns (mapLineItemTypeToPriceType (VStr "credit")) w (VStr "absolute") w ∧
  returns (mapLineItemTypeToPriceType (VStr "promotion")) w VUndefined w ∧
  ∀ itemType,
    to_string itemType ∉ ["product"; "custom"; "credit"] →
    object_prototype !! to_string itemType = None →
    returns (mapLineItemTypeToPriceType itemType) w VUndefined w.
Proof.
  split_and!; try reflexivity.
  intros itemType Hkey Hproto. apply returns_mapLineItemTypeToPriceType. split; [|done].
  unfold get_computed, mapTypes. rewrite Hproto.
  apply not_elem_of_cons in Hkey as [Hproduct Hkey].
  apply not_elem_of_cons in Hkey as [Hcustom Hkey].
  apply not_elem_of_cons in Hkey as [Hcredit _].
  by rewrite !lookup_insert_ne, lookup_empty.
Qed.

(** C7 (as amended).  In a request that [saveLineItem] issues, the
    payload carries one identifier as both [id] and [referencedId]: it is
    [item.identifier] if that is truthy, else [item.id] if that is
    truthy, else a freshly generated identifier of the ID-generation
    collaborator: what [createId] returned to this call, in the state the
    call had reached, so that whatever [createId] guarantees of an
    identifier it returns, uniqueness included, holds of it.  The request
    is issued when the payload of the item can be built and the sales
    channel and the API version are primitives. *)
Theorem saveLineItem_identifier_precedence
    (salesChannelId contextToken item additionalParams additionalHeaders : value) (w : world) :
  (∀ r w',
     returns (saveLineItem salesChannelId contextToken item additionalParams additionalHeaders)
       w r w' →
     ∃ identifier itemId id,
       (get_prop item "identifier" = Normal identifier) ∧
       (get_prop item "id" = Normal itemId) ∧
       lineItemField r "id" = Some id ∧
       lineItemField r "referencedId" = Some id ∧
       (to_boolean identifier = true → id = identifier) ∧
       (to_boolean identifier = false → to_boolean itemId = true → id = itemId) ∧
       (to_boolean identifier = false → to_boolean itemId = false →
        ∃ w1,
          generatedByCall ToString deepCopyObject createId salesChannelId item
            additionalParams additionalHeaders w w1 r id ∧
          ∀ Fresh : world → value → Prop,
            (∀ w0, Fresh w0 (createId w0).1) → Fresh w1 id)) ∧
  (primitive salesChannelId → primitive getApiVersion → payloadReady deepCopyObject item →
   ∃ r w',
     returns (saveLineItem salesChannelId contextToken item additionalParams additionalHeaders)
       w r w').
Proof.
  split; [|intros _ _ Hready; by apply saveLineItem_issues].
  intros r w' Hr. pose proof Hr as H. apply saveLineItem_inv in H
    as (flag & inp & identifier & id & payload & w1 & w2 & _ & _ & Hidentifier & Hid & Hpayload
        & _ & _ & Hdata & _).
  apply getPayloadForItem_inv in Hpayload as (pd & _ & Hpid & Hpref & _).
  destruct (get_prop_any _ _ "id" _ Hidentifier) as [itemId HitemId].
  exists identifier, itemId, id. rewrite !(lineItemField_data _ _ _ Hdata).
  split_and!; try done.
  - intros Htrue. by rewrite Htrue in Hid.
  - intros Hfalse Htrue. rewrite Hfalse in Hid. destruct Hid as (itemId' & HitemId' & Hid).
    same_reads. by rewrite Htrue in Hid.
  - intros Hfalse Hfalse'.
    destruct (saveLineItem_generated _ _ _ _ _ _ _ _ _ _ Hr Hidentifier HitemId Hfalse Hfalse')
      as (id' & wg & Hgenerated & Hfield & _).
    rewrite (lineItemField_data _ _ _ Hdata), Hpid in Hfield. injection Hfield as <-.
    exists wg. split; [done|]. intros Fresh Hfresh.
    destruct Hgenerated as (? & ? & ? & wleft & ? & ? & ? & _ & _ & Hcreated & _).
    specialize (Hfresh wg). by rewrite Hcreated in Hfresh.
Qed.

(** What the shared body of the two toggles returns. *)
Lemma promotionToggleData_inv (additionalParams : value) (w : world) (body : value) (w' : world) :
  returns (CartStoreService.promotionToggleData isActive additionalParams) w body w' →
  ∃ ref props,
    body = VObj ref Plain props ∧
    (if isActive "FEATURE_NEXT_10058"
     then ∃ salesChannelId,
            get_prop additionalParams "salesChannelId" = Normal salesChannelId ∧
            props = {[ "salesChannelId" := salesChannelId ]}
     else props = ∅).
Proof.
  unfold CartStoreService.promotionToggleData. intros H. run_all.
  destruct (isActive "FEATURE_NEXT_10058"); run_all.
  - match goal with H : set_prop _ _ _ = Normal _ |- _ => simpl in H; injection H as <- end.
    eexists _, _. split; [done|]. eexists. split; [done|]. apply insert_empty.
  - by eexists _, _.
Qed.

Lemma toggleAutomaticPromotions_inv (which : toggle)
    (contextToken additionalParams additionalHeaders : value) (w : world) (r : request)
    (w' : world) :
  returns (toggleAutomaticPromotions which contextToken additionalParams additionalHeaders) w r w' →
  ∃ params w1 body w2 w3,
    returns (default_object additionalParams) w params w1 ∧
    returns (CartStoreService.promotionToggleData isActive params) w2 body w3 ∧
    method r = PATCH ∧
    route r = match which with
              | Disable => "_proxy/disable-automatic-promotions"
              | Enable => "_proxy/enable-automatic-promotions"
              end ∧
    data r = Some body ∧
    header r "sw-context-token" = Some contextToken.
Proof.
  intros H.
  destruct which; simpl in H;
    unfold CartStoreService.disableAutomaticPromotions, CartStoreService.enableAutomaticPromotions,
      CartStoreService.contextHeaders, CartStoreService.requestConfig in H;
    apply returns_bind in H as (params & w1 & Hparams & H); cbv beta in H;
    apply returns_bind in H as (headers & w2 & _ & H); cbv beta in H;
    apply returns_bind in H as (hdrs & ? & Hhdrs & H); cbv beta in H;
    apply returns_new_object in Hhdrs as [-> ->];
    apply returns_bind in H as (body & w3 & Hbody & H); cbv beta in H;
    apply returns_bind in H as (config & ? & Hconfig & H); cbv beta in H;
    apply returns_new_object in Hconfig as [-> ->];
    apply returns_ret in H as [-> ->];
    eexists _, _, _, _, _; (split_and!; [eassumption.. | | | | ]); try reflexivity;
    unfold header; simpl; by simplify_map_eq.
Qed.

(** C8.  In a request that [disableAutomaticPromotions] or
    [enableAutomaticPromotions] issues, the body has a [salesChannelId]
    field only when the feature flag ['FEATURE_NEXT_10058'] is active,
    and is the empty object otherwise; with the flag inactive the
    request is always issued. *)
Theorem toggleAutomaticPromotions_body (which : toggle)
    (contextToken additionalParams additionalHeaders : value) (w : world) :
  (∀ r w',
     returns (toggleAutomaticPromotions which contextToken additionalParams additionalHeaders)
       w r w' →
     ∃ props,
       bodyProps r = Some props ∧
       (is_Some (props !! "salesChannelId") → isActive "FEATURE_NEXT_10058" = true) ∧
       (isActive "FEATURE_NEXT_10058" = true → dom props = {[ "salesChannelId" ]}) ∧
       (isActive "FEATURE_NEXT_10058" = false → props = ∅)) ∧
  (isActive "FEATURE_NEXT_10058" = false →
   ∃ r w',
     returns (toggleAutomaticPromotions which contextToken additionalParams additionalHeaders)
       w r w' ∧
     bodyProps r = Some ∅).
Proof.
  assert (∀ r w',
     returns (toggleAutomaticPromotions which contextToken additionalParams additionalHeaders)
       w r w' →
     ∃ props,
       bodyProps r = Some props ∧
       (is_Some (props !! "salesChannelId") → isActive "FEATURE_NEXT_10058" = true) ∧
       (isActive "FEATURE_NEXT_10058" = true → dom props = {[ "salesChannelId" ]}) ∧
       (isActive "FEATURE_NEXT_10058" = false → props = ∅)) as Hbody.
  { intros r w' H.
    apply toggleAutomaticPromotions_inv in H
      as (params & w1 & body & w2 & w3 & _ & Hbody & _ & _ & Hdata & _).
    apply promotionToggleData_inv in Hbody as (ref & props & -> & Hprops).
    exists props. unfold bodyProps. rewrite Hdata. split; [done|].
    destruct (isActive "FEATURE_NEXT_10058").
    - destruct Hprops as (salesChannelId & _ & ->).
      split_and!; [done | intros _; by rewrite dom_singleton_L | done].
    - subst props. split_and!; [|done..]. rewrite lookup_empty. by intros [? ?]. }
  split; [done|]. intros Hoff.
  assert (runs (toggleAutomaticPromotions which contextToken additionalParams additionalHeaders) w)
    as (r & w' & Hr).
  { destruct which; simpl;
      unfold CartStoreService.disableAutomaticPromotions,
        CartStoreService.enableAutomaticPromotions, CartStoreService.contextHeaders,
        CartStoreService.requestConfig, CartStoreService.promotionToggleData;
      rewrite Hoff;
      (apply runs_bind; destruct (runs_default_object additionalParams w) as (params & wa & Ha);
       exists params, wa; split; [done|]; cbv beta);
      (apply runs_bind; destruct (runs_default_object additionalHeaders wa) as (headers & wb & Hb);
       exists headers, wb; split; [done|]; cbv beta);
      advance;
      (apply runs_bind; eexists _, _; split; [repeat step; by apply returns_ret|]; cbv beta);
      advance; apply runs_ret. }
  exists r, w'. split; [done|].
  destruct (Hbody r w' Hr) as (props & Hprops & _ & _ & Hempty). by rewrite Hprops, (Hempty Hoff).
Qed.

(** A toggle issues its request unless the feature is active and the
    parameters are [null]. *)
Lemma toggleAutomaticPromotions_runs (which : toggle)
    (contextToken additionalParams additionalHeaders : value) (w : world) :
  isActive "FEATURE_NEXT_10058" = false ∨ additionalParams ≠ VNull →
  runs (toggleAutomaticPromotions which contextToken additionalParams additionalHeaders) w.
Proof.
  intros Hcase.
  assert (∃ params wa,
            returns (default_object additionalParams) w params wa ∧
            (isActive "FEATURE_NEXT_10058" = true →
             ∃ salesChannelId, get_prop params "salesChannelId" = Normal salesChannelId))
    as (params & wa & Ha & Hread).
  { destruct additionalParams; simpl; eexists _, _;
      (split; [first [by apply returns_new_object | by apply returns_ret]|]);
      intros Hon; first [by eexists | destruct Hcase; congruence]. }
  destruct (runs_default_object additionalHeaders wa) as (headers & wb & Hb).
  destruct which; simpl;
    unfold CartStoreService.disableAutomaticPromotions,
      CartStoreService.enableAutomaticPromotions, CartStoreService.contextHeaders,
      CartStoreService.requestConfig, CartStoreService.promotionToggleData;
    (apply runs_bind; exists params, wa; split; [done|]; cbv beta);
    (apply runs_bind; exists headers, wb; split; [done|]; cbv beta);
    advance;
    (destruct (isActive "FEATURE_NEXT_10058");
       [ destruct (Hread eq_refl) as [salesChannelId Hsc];
         (apply runs_bind; eexists _, _; split;
            [do 2 step; apply returns_set; split; reflexivity|]; cbv beta)
       | (apply runs_bind; eexists _, _; split; [step; by apply returns_ret|]; cbv beta) ]);
    advance; apply runs_ret.
Qed.

(** An operation that is ready issues its request. *)
Lemma perform_runs (op : cartOperation) (w : world) :
  ready getApiVersion deepCopyObject isActive op → runs (perform op) w.
Proof.
  destruct op as [s t p h | s t p h | s t keys p h | s t item p h | s t code p h
                 | s t costs h p | t p h | t p h]; simpl; intros Hready.
  - destruct (runs_default_object p w) as (params & wa & Ha).
    destruct (runs_default_object h wa) as (headers & wb & Hb).
    unfold CartStoreService.getCart, CartStoreService.contextHeaders,
      CartStoreService.requestConfig.
    do 4 advance. apply runs_ret.
  - destruct (runs_default_object p w) as (params & wa & Ha).
    destruct (runs_default_object h wa) as (headers & wb & Hb).
    unfold CartStoreService.cancelCart, CartStoreService.contextHeaders,
      CartStoreService.requestConfig.
    do 4 advance. apply runs_ret.
  - destruct (runs_default_object p w) as (params & wa & Ha).
    destruct (runs_default_object h wa) as (headers & wb & Hb).
    unfold CartStoreService.removeLineItems, CartStoreService.contextHeaders.
    do 5 advance. apply runs_ret.
  - apply saveLineItem_issues. by destruct Hready as (_ & _ & ?).
  - destruct (runs_default_object p w) as (params & wa & Ha).
    destruct (runs_default_object h wa) as (headers & wb & Hb).
    unfold CartStoreService.addPromotionCode, CartStoreService.contextHeaders,
      CartStoreService.requestConfig, new_array1.
    do 7 advance. apply runs_ret.
  - destruct (runs_default_object p w) as (params & wa & Ha).
    unfold CartStoreService.modifyShippingCosts, CartStoreService.contextHeaders,
      CartStoreService.requestConfig.
    do 4 advance. apply runs_ret.
  - by apply (toggleAutomaticPromotions_runs Disable).
  - by apply (toggleAutomaticPromotions_runs Enable).
Qed.

(** C9.  Every operation that targets an existing cart attaches the
    context token it was given to the headers of its request, under the
    name ['sw-context-token']: every request of the operation carries it,
    and the operation does issue a request that carries it whenever it is
    ready, that is when it does not throw before it reaches the
    transport. *)
Theorem perform_attaches_context_token (op : cartOperation) (w : world) :
  (∀ r w',
     returns (perform op) w r w' →
     header r "sw-context-token" = Some (contextTokenOf op)) ∧
  (ready getApiVersion deepCopyObject isActive op →
   ∃ r w',
     returns (perform op) w r w' ∧
     header r "sw-context-token" = Some (contextTokenOf op)).
Proof.
  assert (∀ r w',
            returns (perform op) w r w' →
            header r "sw-context-token" = Some (contextTokenOf op)) as Hissued.
  { destruct op; simpl; intros r w' H.
    - unfold CartStoreService.getCart, CartStoreService.contextHeaders,
        CartStoreService.requestConfig, CartStoreService.httpClient_get in H.
      run_all. unfold header. simpl. by simplify_map_eq.
    - unfold CartStoreService.cancelCart, CartStoreService.contextHeaders,
        CartStoreService.requestConfig, CartStoreService.httpClient_delete in H.
      run_all. unfold header. simpl. by simplify_map_eq.
    - unfold CartStoreService.removeLineItems, CartStoreService.contextHeaders,
        CartStoreService.httpClient_delete in H.
      run_all. unfold header. simpl. by simplify_map_eq.
    - by apply saveLineItem_inv in H
        as (? & ? & ? & ? & ? & ? & ? & _ & _ & _ & _ & _ & _ & _ & _ & ?).
    - unfold CartStoreService.addPromotionCode, CartStoreService.contextHeaders,
        CartStoreService.requestConfig, CartStoreService.httpClient_post in H.
      run_all. unfold header. simpl. by simplify_map_eq.
    - unfold CartStoreService.modifyShippingCosts, CartStoreService.contextHeaders,
        CartStoreService.requestConfig, CartStoreService.httpClient_patch in H.
      run_all. unfold header. simpl. by simplify_map_eq.
    - by apply (toggleAutomaticPromotions_inv Disable) in H
        as (? & ? & ? & ? & ? & _ & _ & _ & _ & _ & ?).
    - by apply (toggleAutomaticPromotions_inv Enable) in H
        as (? & ? & ? & ? & ? & _ & _ & _ & _ & _ & ?). }
  split; [done|]. intros Hready.
  destruct (perform_runs op w Hready) as (r & w' & Hr).
  exists r, w'. split; [done|]. by apply (Hissued _ _ Hr).
Qed.

(** The six primitive values that [ToBoolean] sends to false, next to
    [undefined], which is how an absent property reads. *)
Lemma falsy_values (v : value) :
  v ∈ [VUndefined; VNull; VBool false; VNum 0%float; VNum (-0)%float; VNum nan; VStr ""] →
  to_boolean v = false.
Proof.
  rewrite !elem_of_cons, elem_of_nil. intros [->|[->|[->|[->|[->|[->|[->|[]]]]]]]]; reflexivity.
Qed.

(** C10.  [saveLineItem] takes an [identifier] or an [id] that is the
    empty string, or [0], [null] or another falsy value, as it takes an
    absent one: with a falsy [item.identifier] the payload is identified
    by [item.id] when that is truthy, and when [item.id] is falsy too by a
    freshly generated identifier, what [createId] returned to this call.
    So is every request of the call, and the call does issue such a
    request when the payload of the item can be built and the sales
    channel and the API version are primitives. *)
Theorem saveLineItem_falsy_identifier_as_absent :
  (∀ v, v ∈ [VUndefined; VNull; VBool false; VNum 0%float; VNum (-0)%float; VNum nan; VStr ""] →
        to_boolean v = false) ∧
  (∀ ref c props k, props !! k = None → get_prop (VObj ref c props) k = Normal VUndefined) ∧
  ∀ salesChannelId contextToken item additionalParams additionalHeaders w identifier itemId,
    get_prop item "identifier" = Normal identifier →
    get_prop item "id" = Normal itemId →
    to_boolean identifier = false →
    (∀ r w',
       returns (saveLineItem salesChannelId contextToken item additionalParams additionalHeaders)
         w r w' →
       (to_boolean itemId = true →
          lineItemField r "id" = Some itemId ∧ lineItemField r "referencedId" = Some itemId) ∧
       (to_boolean itemId = false →
          ∃ id w1,
            generatedByCall ToString deepCopyObject createId salesChannelId item
              additionalParams additionalHeaders w w1 r id ∧
            lineItemField r "id" = Some id ∧ lineItemField r "referencedId" = Some id)) ∧
    (primitive salesChannelId → primitive getApiVersion → payloadReady deepCopyObject item →
     ∃ r w',
       returns (saveLineItem salesChannelId contextToken item additionalParams additionalHeaders)
         w r w' ∧
       (to_boolean itemId = true →
          lineItemField r "id" = Some itemId ∧ lineItemField r "referencedId" = Some itemId) ∧
       (to_boolean itemId = false →
          ∃ id w1,
            generatedByCall ToString deepCopyObject createId salesChannelId item
              additionalParams additionalHeaders w w1 r id ∧
            lineItemField r "id" = Some id ∧ lineItemField r "referencedId" = Some id)).
Proof.
  split_and!; [apply falsy_values | by intros ref c props k; simpl; intros -> |].
  intros salesChannelId contextToken item additionalParams additionalHeaders w identifier
    itemId Hidentifier HitemId Hfalse.
  assert (∀ r w',
       returns (saveLineItem salesChannelId contextToken item additionalParams additionalHeaders)
         w r w' →
       (to_boolean itemId = true →
          lineItemField r "id" = Some itemId ∧ lineItemField r "referencedId" = Some itemId) ∧
       (to_boolean itemId = false →
          ∃ id w1,
            generatedByCall ToString deepCopyObject createId salesChannelId item
              additionalParams additionalHeaders w w1 r id ∧
            lineItemField r "id" = Some id ∧ lineItemField r "referencedId" = Some id))
    as Hissued.
  { intros r w' Hr. split.
    - intros Htrue. apply saveLineItem_inv in Hr
        as (flag & inp & identifier' & id & payload & w1 & w2 & _ & _ & Hidentifier' & Hid
            & Hpayload & _ & _ & Hdata & _).
      apply getPayloadForItem_inv in Hpayload as (pd & _ & Hpid & Hpref & _).
      same_reads. rewrite Hfalse in Hid. destruct Hid as (itemId' & HitemId' & Hid).
      same_reads. rewrite Htrue in Hid. subst id.
      by rewrite !(lineItemField_data _ _ _ Hdata).
    - intros Hfalse'.
      by apply (saveLineItem_generated _ _ _ _ _ _ _ _ _ _ Hr Hidentifier HitemId). }
  split; [done|]. intros _ _ Hready.
  destruct (saveLineItem_issues salesChannelId contextToken item additionalParams
              additionalHeaders w Hready) as (r & w' & Hr).
  exists r, w'. split; [done|]. by apply (Hissued _ _ Hr).
Qed.

End properties.

(** ** The properties on the fixtures *)

Lemma Fixture_deepCopyObject_object (ref : ref) (c : class) (props : gmap string value) :
  copiesToObject Fixture.deepCopyObject (VObj ref c props).
Proof.
  intros w. unfold returns, Fixture.deepCopyObject. simpl.
  destruct (map_fold _ _ props) as [props' n]. by eexists _, _, _, _.
Qed.

(** Saving the edited item is a PATCH that carries the copied price
    definition. *)
Lemma editedItem_request :
  returns (Fixture.saveLineItem Fixture.salesChannelId Fixture.contextToken Fixture.editedItem
             VUndefined VUndefined) Fixture.w0
    (Fixture.sentRequest PATCH (VStr "c9d1") "product" Fixture.sentDefinition 106)
    (Fixture.after 110 0).
Proof. vm_compute. reflexivity. Qed.

(** Saving the new custom item is a POST that carries the copied price
    definition as well. *)
Lemma newCustomItem_request :
  returns (Fixture.saveLineItem Fixture.salesChannelId Fixture.contextToken Fixture.newCustomItem
             VUndefined VUndefined) Fixture.w0
    (Fixture.sentRequest POST (VStr "c9d1") "custom" Fixture.sentDefinition 106)
    (Fixture.after 110 0).
Proof. vm_compute. reflexivity. Qed.

(** With an empty [identifier] the payload is identified by [item.id]. *)
Lemma emptyIdentifierItem_request :
  returns (Fixture.saveLineItem Fixture.salesChannelId Fixture.contextToken
             Fixture.emptyIdentifierItem VUndefined VUndefined) Fixture.w0
    (Fixture.sentRequest PATCH (VStr "0f3a") "product" Fixture.sentDefinition 106)
    (Fixture.after 110 0).
Proof. vm_compute. reflexivity. Qed.

(** With an empty [identifier] and an empty [id] the payload is
    identified by what [createId] returns. *)
Lemma anonymousItem_request :
  returns (Fixture.saveLineItem Fixture.salesChannelId Fixture.contextToken Fixture.anonymousItem
             VUndefined VUndefined) Fixture.w0
    (Fixture.sentRequest PATCH (VStr "generated-7") "product" Fixture.sentDefinition 106)
    (Fixture.after 110 1).
Proof. vm_compute. reflexivity. Qed.

(** The payload of the fixture items whose price was edited can be
    built. *)
Lemma edited_lineItem_payloadReady (item : value) (type : value) :
  unitPriceOf item = Normal (VNum 10%float) →
  definedPriceOf item = Normal (VNum 5%float) →
  get_prop item "type" = Normal type →
  primitive type →
  get_prop item "priceDefinition" = Normal (Fixture.priceDefinition 5) →
  payloadReady Fixture.deepCopyObject item.
Proof.
  intros Hunit Hdefined Htype Hprimitive Hstored. right; right. split_and!.
  - by exists (VNum 10%float), (VNum 5%float).
  - by exists type.
  - exists (Fixture.priceDefinition 5). split; [done|]. apply Fixture_deepCopyObject_object.
Qed.

Lemma editedItem_payloadReady : payloadReady Fixture.deepCopyObject Fixture.editedItem.
Proof.
  apply (edited_lineItem_payloadReady _ (VStr "product")); first [exact I | vm_compute; reflexivity].
Qed.

Lemma newCustomItem_payloadReady : payloadReady Fixture.deepCopyObject Fixture.newCustomItem.
Proof.
  apply (edited_lineItem_payloadReady _ (VStr "custom")); first [exact I | vm_compute; reflexivity].
Qed.

Lemma emptyIdentifierItem_payloadReady :
  payloadReady Fixture.deepCopyObject Fixture.emptyIdentifierItem.
Proof.
  apply (edited_lineItem_payloadReady _ (VStr "product")); first [exact I | vm_compute; reflexivity].
Qed.

Lemma anonymousItem_payloadReady : payloadReady Fixture.deepCopyObject Fixture.anonymousItem.
Proof.
  apply (edited_lineItem_payloadReady _ (VStr "product")); first [exact I | vm_compute; reflexivity].
Qed.

Lemma saveLineItem_priceDefinition_iff_witness :
  returns (Fixture.saveLineItem Fixture.salesChannelId Fixture.contextToken Fixture.editedItem
             VUndefined VUndefined) Fixture.w0
    (Fixture.sentRequest PATCH (VStr "c9d1") "product" Fixture.sentDefinition 106)
    (Fixture.after 110 0) ∧
  ∃ priceDefinition,
    lineItemField (Fixture.sentRequest PATCH (VStr "c9d1") "product" Fixture.sentDefinition 106)
      "priceDefinition" = Some priceDefinition ∧
    (priceDefinition ≠ VNull ↔
       ¬ (isNew Fixture.editedItem ∧ isProduct Fixture.editedItem) ∧
       priceDiffers Fixture.editedItem).
Proof.
  split; [vm_compute; reflexivity|].
  apply (saveLineItem_priceDefinition_iff Fixture.ToString Fixture.getApiVersion
           Fixture.getBasicHeaders Fixture.deepCopyObject Fixture.createId
           Fixture.salesChannelId Fixture.contextToken Fixture.editedItem VUndefined VUndefined
           Fixture.w0 _ (Fixture.after 110 0)).
  vm_compute. reflexivity.
Defined.

(** C1 as stated fails on a new item that is not a product: the price
    definition of a new custom item with an edited price is sent, although
    the item is newly created. *)
Lemma new_custom_item_priceDefinition_not_null :
  returns (Fixture.saveLineItem Fixture.salesChannelId Fixture.contextToken Fixture.newCustomItem
             VUndefined VUndefined) Fixture.w0
    (Fixture.sentRequest POST (VStr "c9d1") "custom" Fixture.sentDefinition 106)
    (Fixture.after 110 0) ∧
  lineItemField (Fixture.sentRequest POST (VStr "c9d1") "custom" Fixture.sentDefinition 106)
    "priceDefinition" = Some Fixture.sentDefinition ∧
  get_prop Fixture.newCustomItem "_isNew" = Normal (VBool true) ∧
  ¬ (Fixture.sentDefinition ≠ VNull ↔
       notNew Fixture.newCustomItem ∧ priceDiffers Fixture.newCustomItem).
Proof.
  split_and!; [exact newCustomItem_request | vm_compute; reflexivity.. |].
  intros [Hnew _]. destruct Hnew as [(flag & Hflag & Hfalse) _]; [done|].
  vm_compute in Hflag. injection Hflag as <-. discriminate.
Qed.




Lemma saveLineItem_method_and_route_witness :
  (primitive Fixture.salesChannelId ∧
   primitive Fixture.getApiVersion ∧
   payloadReady Fixture.deepCopyObject Fixture.newCustomItem ∧
   isNew Fixture.newCustomItem ∧
   ∃ r w',
     returns (Fixture.saveLineItem Fixture.salesChannelId Fixture.contextToken
                Fixture.newCustomItem VUndefined VUndefined) Fixture.w0 r w' ∧
     method r = POST ∧
     route r = Fixture.lineItemRoute) ∧
  (primitive Fixture.salesChannelId ∧
   primitive Fixture.getApiVersion ∧
   payloadReady Fixture.deepCopyObject Fixture.editedItem ∧
   notNew Fixture.editedItem ∧
   ∃ r w',
     returns (Fixture.saveLineItem Fixture.salesChannelId Fixture.contextToken
                Fixture.editedItem VUndefined VUndefined) Fixture.w0 r w' ∧
     method r = PATCH ∧
     route r = Fixture.lineItemRoute) ∧
  (returns (Fixture.saveLineItem Fixture.salesChannelId Fixture.contextToken
              Fixture.newCustomItem VUndefined VUndefined) Fixture.w0
     (Fixture.sentRequest POST (VStr "c9d1") "custom" Fixture.sentDefinition 106)
     (Fixture.after 110 0) ∧
   (POST = POST ↔ isNew Fixture.newCustomItem) ∧
   (POST = PATCH ↔ notNew Fixture.newCustomItem) ∧
   Fixture.lineItemRoute =
     "_proxy/store-api/" +:+ CartStoreService.to_string Fixture.ToString Fixture.salesChannelId
       +:+ "/v" +:+ CartStoreService.to_string Fixture.ToString Fixture.getApiVersion
       +:+ "/checkout/cart/line-item").
Proof.
  assert (primitive Fixture.salesChannelId) as Hchannel by exact I.
  assert (primitive Fixture.getApiVersion) as Hversion by exact I.
  assert (isNew Fixture.newCustomItem) as Hnew.
  { exists (VBool true). split; vm_compute; reflexivity. }
  assert (notNew Fixture.editedItem) as Hold.
  { exists (VBool false). split; vm_compute; reflexivity. }
  split; [|split].
  - split_and!; [done | done | exact newCustomItem_payloadReady | done |].
    exact (proj1 (proj2 (saveLineItem_method_and_route Fixture.ToString Fixture.getApiVersion
                           Fixture.getBasicHeaders Fixture.deepCopyObject Fixture.createId
                           Fixture.salesChannelId Fixture.contextToken Fixture.newCustomItem
                           VUndefined VUndefined Fixture.w0)
                    Hchannel Hversion newCustomItem_payloadReady) Hnew).
  - split_and!; [done | done | exact editedItem_payloadReady | done |].
    exact (proj2 (proj2 (saveLineItem_method_and_route Fixture.ToString Fixture.getApiVersion
                           Fixture.getBasicHeaders Fixture.deepCopyObject Fixture.createId
                           Fixture.salesChannelId Fixture.contextToken Fixture.editedItem
                           VUndefined VUndefined Fixture.w0)
                    Hchannel Hversion editedItem_payloadReady) Hold).
  - split; [vm_compute; reflexivity|].
    apply (proj1 (saveLineItem_method_and_route Fixture.ToString Fixture.getApiVersion
                    Fixture.getBasicHeaders Fixture.deepCopyObject Fixture.createId
                    Fixture.salesChannelId Fixture.contextToken Fixture.newCustomItem
                    VUndefined VUndefined Fixture.w0)
             (Fixture.sentRequest POST (VStr "c9d1") "custom" Fixture.sentDefinition 106)
             (Fixture.after 110 0)).
    vm_compute. reflexivity.
Defined.

Lemma mapLineItemTypeToPriceType_values_witness :
  (CartStoreService.to_string Fixture.ToString (VStr "shipping")
     ∉ ["product"; "custom"; "credit"]) ∧
  object_prototype !! CartStoreService.to_string Fixture.ToString (VStr "shipping") = None ∧
  returns (Fixture.mapLineItemTypeToPriceType (VStr "shipping")) Fixture.w0 VUndefined Fixture.w0.
Proof.
  assert (CartStoreService.to_string Fixture.ToString (VStr "shipping")
            ∉ ["product"; "custom"; "credit"]) as Hkey.
  { simpl. rewrite !not_elem_of_cons. split_and!; [done.. |]. apply not_elem_of_nil. }
  assert (object_prototype !! CartStoreService.to_string Fixture.ToString (VStr "shipping") = None)
    as Hproto by (vm_compute; reflexivity).
  split_and!; [done.. |].
  exact (proj2 (proj2 (proj2 (proj2
           (mapLineItemTypeToPriceType_values Fixture.ToString Fixture.w0))))
           (VStr "shipping") Hkey Hproto).
Defined.

(** C6 as stated fails on an input that is not mapped but names a
    property every object inherits: for ['constructor'] the lookup in
    [mapTypes] finds [Object], not [undefined]. *)
Lemma mapLineItemTypeToPriceType_constructor :
  mapTypes !! "constructor" = None ∧
  returns (Fixture.mapLineItemTypeToPriceType (VStr "constructor")) Fixture.w0
    (builtin "Object") Fixture.w0 ∧
  ¬ returns (Fixture.mapLineItemTypeToPriceType (VStr "constructor")) Fixture.w0
      VUndefined Fixture.w0.
Proof.
  split_and!; [vm_compute; reflexivity.. |].
  unfold returns. vm_compute. discriminate.
Qed.

Lemma saveLineItem_identifier_precedence_witness :
  (returns (Fixture.saveLineItem Fixture.salesChannelId Fixture.contextToken
              Fixture.anonymousItem VUndefined VUndefined) Fixture.w0
     (Fixture.sentRequest PATCH (VStr "generated-7") "product" Fixture.sentDefinition 106)
     (Fixture.after 110 1) ∧
   ∃ identifier itemId id,
     (get_prop Fixture.anonymousItem "identifier" = Normal identifier) ∧
     (get_prop Fixture.anonymousItem "id" = Normal itemId) ∧
     lineItemField
       (Fixture.sentRequest PATCH (VStr "generated-7") "product" Fixture.sentDefinition 106)
       "id" = Some id ∧
     lineItemField
       (Fixture.sentRequest PATCH (VStr "generated-7") "product" Fixture.sentDefinition 106)
       "referencedId" = Some id ∧
     (to_boolean identifier = true → id = identifier) ∧
     (to_boolean identifier = false → to_boolean itemId = true → id = itemId) ∧
     (to_boolean identifier = false → to_boolean itemId = false →
      ∃ w1,
        generatedByCall Fixture.ToString Fixture.deepCopyObject Fixture.createId
          Fixture.salesChannelId Fixture.anonymousItem VUndefined VUndefined Fixture.w0 w1
          (Fixture.sentRequest PATCH (VStr "generated-7") "product" Fixture.sentDefinition 106)
          id ∧
        ∀ Fresh : world → value → Prop,
          (∀ w0, Fresh w0 (Fixture.createId w0).1) → Fresh w1 id)) ∧
  (primitive Fixture.salesChannelId ∧
   primitive Fixture.getApiVersion ∧
   payloadReady Fixture.deepCopyObject Fixture.anonymousItem ∧
   ∃ r w',
     returns (Fixture.saveLineItem Fixture.salesChannelId Fixture.contextToken
                Fixture.anonymousItem VUndefined VUndefined) Fixture.w0 r w').
Proof.
  assert (primitive Fixture.salesChannelId) as Hchannel by exact I.
  assert (primitive Fixture.getApiVersion) as Hversion by exact I.
  split.
  - split; [vm_compute; reflexivity|].
    apply (proj1 (saveLineItem_identifier_precedence Fixture.ToString Fixture.getApiVersion
                    Fixture.getBasicHeaders Fixture.deepCopyObject Fixture.createId
                    Fixture.salesChannelId Fixture.contextToken Fixture.anonymousItem VUndefined
                    VUndefined Fixture.w0)
             (Fixture.sentRequest PATCH (VStr "generated-7") "product" Fixture.sentDefinition 106)
             (Fixture.after 110 1)).
    vm_compute. reflexivity.
  - split_and!; [done | done | exact anonymousItem_payloadReady |].
    exact (proj2 (saveLineItem_identifier_precedence Fixture.ToString Fixture.getApiVersion
                    Fixture.getBasicHeaders Fixture.deepCopyObject Fixture.createId
                    Fixture.salesChannelId Fixture.contextToken Fixture.anonymousItem VUndefined
                    VUndefined Fixture.w0)
             Hchannel Hversion anonymousItem_payloadReady).
Defined.

(** C7 as stated fails on an item whose [identifier] is present and
    empty: the payload is identified by [item.id], not by the identifier
    that is present. *)
Lemma empty_identifier_present_but_skipped :
  present Fixture.emptyIdentifierItem "identifier" ∧
  get_prop Fixture.emptyIdentifierItem "identifier" = Normal (VStr "") ∧
  returns (Fixture.saveLineItem Fixture.salesChannelId Fixture.contextToken
             Fixture.emptyIdentifierItem VUndefined VUndefined) Fixture.w0
    (Fixture.sentRequest PATCH (VStr "0f3a") "product" Fixture.sentDefinition 106)
    (Fixture.after 110 0) ∧
  lineItemField (Fixture.sentRequest PATCH (VStr "0f3a") "product" Fixture.sentDefinition 106)
    "id" = Some (VStr "0f3a") ∧
  lineItemField (Fixture.sentRequest PATCH (VStr "0f3a") "product" Fixture.sentDefinition 106)
    "id" ≠ Some (VStr "").
Proof.
  split_and!; [by eexists; vm_compute | vm_compute; reflexivity | exact emptyIdentifierItem_request
              | vm_compute; reflexivity | vm_compute; discriminate].
Qed.

Lemma toggleAutomaticPromotions_body_witness :
  (returns (CartStoreService.toggleAutomaticPromotions Fixture.getBasicHeaders Fixture.isActive
              Enable Fixture.contextToken Fixture.toggleParams VUndefined) Fixture.w0
     Fixture.enableRequest (Fixture.after 104 0) ∧
   ∃ props,
     bodyProps Fixture.enableRequest = Some props ∧
     (is_Some (props !! "salesChannelId") → Fixture.isActive "FEATURE_NEXT_10058" = true) ∧
     (Fixture.isActive "FEATURE_NEXT_10058" = true → dom props = {[ "salesChannelId" ]}) ∧
     (Fixture.isActive "FEATURE_NEXT_10058" = false → props = ∅)) ∧
  (Fixture.inactive "FEATURE_NEXT_10058" = false ∧
   ∃ r w',
     returns (CartStoreService.toggleAutomaticPromotions Fixture.getBasicHeaders Fixture.inactive
                Disable Fixture.contextToken Fixture.toggleParams VUndefined) Fixture.w0 r w' ∧
     bodyProps r = Some ∅).
Proof.
  split; (split; [vm_compute; reflexivity|]).
  - apply (proj1 (toggleAutomaticPromotions_body Fixture.getBasicHeaders Fixture.isActive Enable
                    Fixture.contextToken Fixture.toggleParams VUndefined Fixture.w0)
             Fixture.enableRequest (Fixture.after 104 0)).
    vm_compute. reflexivity.
  - apply (proj2 (toggleAutomaticPromotions_body Fixture.getBasicHeaders Fixture.inactive Disable
                    Fixture.contextToken Fixture.toggleParams VUndefined Fixture.w0)).
    vm_compute. reflexivity.
Defined.

Lemma perform_attaches_context_token_witness :
  Forall
    (λ op,
       ready Fixture.getApiVersion Fixture.deepCopyObject Fixture.isActive op ∧
       ∃ r w',
         returns (Fixture.perform op) Fixture.w0 r w' ∧
         header r "sw-context-token" = Some Fixture.contextToken)
    Fixture.operations ∧
  (returns (Fixture.perform (SaveLineItem Fixture.salesChannelId Fixture.contextToken
                               Fixture.editedItem VUndefined VUndefined)) Fixture.w0
     (Fixture.sentRequest PATCH (VStr "c9d1") "product" Fixture.sentDefinition 106)
     (Fixture.after 110 0) ∧
   header (Fixture.sentRequest PATCH (VStr "c9d1") "product" Fixture.sentDefinition 106)
     "sw-context-token" = Some Fixture.contextToken).
Proof.
  assert (primitive Fixture.salesChannelId ∧ primitive Fixture.getApiVersion) as Hroute
    by (split; exact I).
  assert (Fixture.isActive "FEATURE_NEXT_10058" = false ∨ Fixture.toggleParams ≠ VNull)
    as Htoggle by (right; discriminate).
  split.
  - unfold Fixture.operations. repeat apply List.Forall_cons; [..|apply List.Forall_nil].
    + split; [exact Hroute|].
      exact (proj2 (perform_attaches_context_token Fixture.ToString Fixture.getApiVersion
                      Fixture.getBasicHeaders Fixture.deepCopyObject Fixture.createId
                      Fixture.isActive
                      (GetCart Fixture.salesChannelId Fixture.contextToken VUndefined VUndefined)
                      Fixture.w0) Hroute).
    + split; [exact Hroute|].
      exact (proj2 (perform_attaches_context_token Fixture.ToString Fixture.getApiVersion
                      Fixture.getBasicHeaders Fixture.deepCopyObject Fixture.createId
                      Fixture.isActive
                      (CancelCart Fixture.salesChannelId Fixture.contextToken VUndefined
                         VUndefined)
                      Fixture.w0) Hroute).
    + split; [exact Hroute|].
      exact (proj2 (perform_attaches_context_token Fixture.ToString Fixture.getApiVersion
                      Fixture.getBasicHeaders Fixture.deepCopyObject Fixture.createId
                      Fixture.isActive
                      (RemoveLineItems Fixture.salesChannelId Fixture.contextToken
                         Fixture.lineItemKeys VUndefined VUndefined)
                      Fixture.w0) Hroute).
    + assert (ready Fixture.getApiVersion Fixture.deepCopyObject Fixture.isActive
                (SaveLineItem Fixture.salesChannelId Fixture.contextToken Fixture.editedItem
                   VUndefined VUndefined)) as Hready.
      { split_and!; [exact I | exact I | exact editedItem_payloadReady]. }
      split; [exact Hready|].
      exact (proj2 (perform_attaches_context_token Fixture.ToString Fixture.getApiVersion
                      Fixture.getBasicHeaders Fixture.deepCopyObject Fixture.createId
                      Fixture.isActive
                      (SaveLineItem Fixture.salesChannelId Fixture.contextToken
                         Fixture.editedItem VUndefined VUndefined)
                      Fixture.w0) Hready).
    + split; [exact Hroute|].
      exact (proj2 (perform_attaches_context_token Fixture.ToString Fixture.getApiVersion
                      Fixture.getBasicHeaders Fixture.deepCopyObject Fixture.createId
                      Fixture.isActive
                      (AddPromotionCode Fixture.salesChannelId Fixture.contextToken
                         (VStr "SUMMER") VUndefined VUndefined)
                      Fixture.w0) Hroute).
    + split; [exact I|].
      exact (proj2 (perform_attaches_context_token Fixture.ToString Fixture.getApiVersion
                      Fixture.getBasicHeaders Fixture.deepCopyObject Fixture.createId
                      Fixture.isActive
                      (ModifyShippingCosts Fixture.salesChannelId Fixture.contextToken
                         Fixture.shippingCosts VUndefined VUndefined)
                      Fixture.w0) I).
    + split; [exact Htoggle|].
      exact (proj2 (perform_attaches_context_token Fixture.ToString Fixture.getApiVersion
                      Fixture.getBasicHeaders Fixture.deepCopyObject Fixture.createId
                      Fixture.isActive
                      (DisableAutomaticPromotions Fixture.contextToken Fixture.toggleParams
                         VUndefined)
                      Fixture.w0) Htoggle).
    + split; [exact Htoggle|].
      exact (proj2 (perform_attaches_context_token Fixture.ToString Fixture.getApiVersion
                      Fixture.getBasicHeaders Fixture.deepCopyObject Fixture.createId
                      Fixture.isActive
                      (EnableAutomaticPromotions Fixture.contextToken Fixture.toggleParams
                         VUndefined)
                      Fixture.w0) Htoggle).
  - split; [vm_compute; reflexivity|].
    apply (proj1 (perform_attaches_context_token Fixture.ToString Fixture.getApiVersion
                    Fixture.getBasicHeaders Fixture.deepCopyObject Fixture.createId
                    Fixture.isActive
                    (SaveLineItem Fixture.salesChannelId Fixture.contextToken Fixture.editedItem
                       VUndefined VUndefined)
                    Fixture.w0) _ (Fixture.after 110 0)).
    vm_compute. reflexivity.
Defined.

Lemma saveLineItem_falsy_identifier_as_absent_witness :
  (get_prop Fixture.emptyIdentifierItem "identifier" = Normal (VStr "") ∧
   get_prop Fixture.emptyIdentifierItem "id" = Normal (VStr "0f3a") ∧
   to_boolean (VStr "") = false ∧
   primitive Fixture.salesChannelId ∧
   primitive Fixture.getApiVersion ∧
   payloadReady Fixture.deepCopyObject Fixture.emptyIdentifierItem ∧
   ∃ r w',
     returns (Fixture.saveLineItem Fixture.salesChannelId Fixture.contextToken
                Fixture.emptyIdentifierItem VUndefined VUndefined) Fixture.w0 r w' ∧
     (to_boolean (VStr "0f3a") = true →
        lineItemField r "id" = Some (VStr "0f3a") ∧
        lineItemField r "referencedId" = Some (VStr "0f3a")) ∧
     (to_boolean (VStr "0f3a") = false →
        ∃ id w1,
          generatedByCall Fixture.ToString Fixture.deepCopyObject Fixture.createId
            Fixture.salesChannelId Fixture.emptyIdentifierItem VUndefined VUndefined
            Fixture.w0 w1 r id ∧
          lineItemField r "id" = Some id ∧ lineItemField r "referencedId" = Some id)) ∧
  (returns (Fixture.saveLineItem Fixture.salesChannelId Fixture.contextToken
              Fixture.emptyIdentifierItem VUndefined VUndefined) Fixture.w0
     Fixture.emptyIdentifierRequest (Fixture.after 110 0) ∧
   (to_boolean (VStr "0f3a") = true →
      lineItemField Fixture.emptyIdentifierRequest "id" = Some (VStr "0f3a") ∧
      lineItemField Fixture.emptyIdentifierRequest "referencedId" = Some (VStr "0f3a")) ∧
   (to_boolean (VStr "0f3a") = false →
      ∃ id w1,
        generatedByCall Fixture.ToString Fixture.deepCopyObject Fixture.createId
          Fixture.salesChannelId Fixture.emptyIdentifierItem VUndefined VUndefined
          Fixture.w0 w1 Fixture.emptyIdentifierRequest id ∧
        lineItemField Fixture.emptyIdentifierRequest "id" = Some id ∧
        lineItemField Fixture.emptyIdentifierRequest "referencedId" = Some id)) ∧
  (get_prop Fixture.anonymousItem "identifier" = Normal (VStr "") ∧
   get_prop Fixture.anonymousItem "id" = Normal (VStr "") ∧
   to_boolean (VStr "") = false ∧
   primitive Fixture.salesChannelId ∧
   primitive Fixture.getApiVersion ∧
   payloadReady Fixture.deepCopyObject Fixture.anonymousItem ∧
   ∃ r w',
     returns (Fixture.saveLineItem Fixture.salesChannelId Fixture.contextToken
                Fixture.anonymousItem VUndefined VUndefined) Fixture.w0 r w' ∧
     (to_boolean (VStr "") = true →
        lineItemField r "id" = Some (VStr "") ∧
        lineItemField r "referencedId" = Some (VStr "")) ∧
     (to_boolean (VStr "") = false →
        ∃ id w1,
          generatedByCall Fixture.ToString Fixture.deepCopyObject Fixture.createId
            Fixture.salesChannelId Fixture.anonymousItem VUndefined VUndefined
            Fixture.w0 w1 r id ∧
          lineItemField r "id" = Some id ∧ lineItemField r "referencedId" = Some id)) ∧
  (returns (Fixture.saveLineItem Fixture.salesChannelId Fixture.contextToken
              Fixture.anonymousItem VUndefined VUndefined) Fixture.w0
     Fixture.anonymousRequest (Fixture.after 110 1) ∧
   (to_boolean (VStr "") = true →
      lineItemField Fixture.anonymousRequest "id" = Some (VStr "") ∧
      lineItemField Fixture.anonymousRequest "referencedId" = Some (VStr "")) ∧
   (to_boolean (VStr "") = false →
      ∃ id w1,
        generatedByCall Fixture.ToString Fixture.deepCopyObject Fixture.createId
          Fixture.salesChannelId Fixture.anonymousItem VUndefined VUndefined
          Fixture.w0 w1 Fixture.anonymousRequest id ∧
        lineItemField Fixture.anonymousRequest "id" = Some id ∧
        lineItemField Fixture.anonymousRequest "referencedId" = Some id)).
Proof.
  assert (primitive Fixture.salesChannelId) as Hchannel by exact I.
  assert (primitive Fixture.getApiVersion) as Hversion by exact I.
  assert (get_prop Fixture.emptyIdentifierItem "identifier" = Normal (VStr "")) as Hidentifier
    by (vm_compute; reflexivity).
  assert (get_prop Fixture.emptyIdentifierItem "id" = Normal (VStr "0f3a")) as Hid
    by (vm_compute; reflexivity).
  assert (get_prop Fixture.anonymousItem "identifier" = Normal (VStr "")) as Hidentifier'
    by (vm_compute; reflexivity).
  assert (get_prop Fixture.anonymousItem "id" = Normal (VStr "")) as Hid'
    by (vm_compute; reflexivity).
  split; [|split; [|split]].
  - split_and!; [done | done | done | done | done | exact emptyIdentifierItem_payloadReady |].
    exact (proj2 (proj2 (proj2 (saveLineItem_falsy_identifier_as_absent Fixture.ToString
                                  Fixture.getApiVersion Fixture.getBasicHeaders
                                  Fixture.deepCopyObject Fixture.createId))
                    Fixture.salesChannelId Fixture.contextToken Fixture.emptyIdentifierItem
                    VUndefined VUndefined Fixture.w0 (VStr "") (VStr "0f3a")
                    Hidentifier Hid eq_refl)
             Hchannel Hversion emptyIdentifierItem_payloadReady).
  - split; [vm_compute; reflexivity|].
    apply (proj1 (proj2 (proj2 (saveLineItem_falsy_identifier_as_absent Fixture.ToString
                                  Fixture.getApiVersion Fixture.getBasicHeaders
                                  Fixture.deepCopyObject Fixture.createId))
                    Fixture.salesChannelId Fixture.contextToken Fixture.emptyIdentifierItem
                    VUndefined VUndefined Fixture.w0 (VStr "") (VStr "0f3a")
                    Hidentifier Hid eq_refl)
             Fixture.emptyIdentifierRequest (Fixture.after 110 0)).
    vm_compute. reflexivity.
  - split_and!; [done | done | done | done | done | exact anonymousItem_payloadReady |].
    exact (proj2 (proj2 (proj2 (saveLineItem_falsy_identifier_as_absent Fixture.ToString
                                  Fixture.getApiVersion Fixture.getBasicHeaders
                                  Fixture.deepCopyObject Fixture.createId))
                    Fixture.salesChannelId Fixture.contextToken Fixture.anonymousItem
                    VUndefined VUndefined Fixture.w0 (VStr "") (VStr "")
                    Hidentifier' Hid' eq_refl)
             Hchannel Hversion anonymousItem_payloadReady).
  - split; [vm_compute; reflexivity|].
    apply (proj1 (proj2 (proj2 (saveLineItem_falsy_identifier_as_absent Fixture.ToString
                                  Fixture.getApiVersion Fixture.getBasicHeaders
                                  Fixture.deepCopyObject Fixture.createId))
                    Fixture.salesChannelId Fixture.contextToken Fixture.anonymousItem
                    VUndefined VUndefined Fixture.w0 (VStr "") (VStr "")
                    Hidentifier' Hid' eq_refl)
             Fixture.anonymousRequest (Fixture.after 110 1)).
    vm_compute. reflexivity.
Defined.

(** ** Further properties of the service *)

Lemma returns_default_object_defaulted (arg : value) (w : world) (v : value) (w' : world) :
  returns (default_object arg) w v w' → defaulted arg v.
Proof.
  destruct arg; simpl; intros H;
    first [ apply returns_new_object in H as [-> _]; by eexists
          | by apply returns_ret in H as [-> _] ].
Qed.

Lemma string_app_assoc (a b c : string) : (a +:+ b) +:+ c = a +:+ (b +:+ c).
Proof. induction a as [|x a IH]; [done|]. change (String x ((a +:+ b) +:+ c) = String x (a +:+ (b +:+ c))). by rewrite IH. Qed.

Lemma throws_now {A B} (m : M A) (k : A → M B) (w : world) :
  throws m w → throws (m ≫= k) w.
Proof. intros [w' H]. exists w'. unfold mbind, M_bind. by rewrite H. Qed.

Lemma throws_bind {A B} (m : M A) (k : A → M B) (w : world) (a : A) (w1 : world) :
  returns m w a w1 → throws (k a) w1 → throws (m ≫= k) w.
Proof. intros Hm [w' H]. exists w'. unfold mbind, M_bind. by rewrite Hm. Qed.

Lemma throws_get (v : value) (k : string) (w : world) :
  get_prop v k = Throw TypeError → throws (get v k) w.
Proof. intros H. exists w. unfold get, lift. by rewrite H. Qed.

Lemma get_prop_nullish (v : value) (k : string) :
  v = VNull ∨ v = VUndefined → get_prop v k = Throw TypeError.
Proof. by intros [-> | ->]. Qed.

Lemma get_prop_cases (v : value) (k : string) :
  (∃ a, get_prop v k = Normal a) ∨ (v = VNull ∨ v = VUndefined).
Proof. destruct v; simpl; eauto. Qed.

(** Nothing a plain object inherits is a string. *)
Lemma object_prototype_not_string (k s : string) :
  default VUndefined (object_prototype !! k) ≠ VStr s.
Proof.
  unfold object_prototype, object_prototype_methods. simpl list_to_map.
  repeat (rewrite lookup_insert; case_decide; [done|]). by rewrite lookup_empty.
Qed.

Lemma get_computed_mapTypes (k : string) :
  get_computed mapTypes k =
    if decide (k = "credit") then VStr "absolute"
    else if decide (k = "custom") then VStr "quantity"
    else if decide (k = "product") then VStr "quantity"
    else default VUndefined (object_prototype !! k).
Proof.
  unfold get_computed, mapTypes.
  repeat (rewrite lookup_insert; case_decide; [subst; by repeat case_decide|]).
  rewrite lookup_empty. by repeat case_decide.
Qed.

Lemma bind_eq {A B} (m m' : M A) (k k' : A → M B) (w : world) :
  m w = m' w →
  (∀ a w1, returns m w a w1 → k a w1 = k' a w1) →
  (m ≫= k) w = (m' ≫= k') w.
Proof.
  unfold returns, mbind, M_bind. intros <- Hk. destruct (m w) as [[a|e] w1]; [|done].
  by apply Hk.
Qed.

(** Two reads of the same property give the same value. *)
Ltac same_reads :=
  repeat match goal with
    | H1 : ?x = Normal ?a, H2 : ?x = Normal ?b |- _ =>
        assert (b = a) by congruence; subst b; clear H2
    end.

Section further.

Set Default Proof Using "Type".

Variable ToString : value → string.
Variable getApiVersion : value.
Variable getBasicHeaders : value → gmap string value.
Variable deepCopyObject : value → M value.
Variable createId : world → value * world.
Variable isActive : string → bool.

Abbreviation to_string := (CartStoreService.to_string ToString).
Abbreviation cartRoute := (CartStoreService.cartRoute ToString getApiVersion).
Abbreviation createCart := (CartStoreService.createCart ToString getApiVersion getBasicHeaders).
Abbreviation getCart := (CartStoreService.getCart ToString getApiVersion getBasicHeaders).
Abbreviation cancelCart := (CartStoreService.cancelCart ToString getApiVersion getBasicHeaders).
Abbreviation removeLineItems :=
  (CartStoreService.removeLineItems ToString getApiVersion getBasicHeaders).
Abbreviation addPromotionCode :=
  (CartStoreService.addPromotionCode ToString getApiVersion getBasicHeaders).
Abbreviation modifyShippingCosts := (CartStoreService.modifyShippingCosts getBasicHeaders).
Abbreviation mapLineItemTypeToPriceType := (CartStoreService.mapLineItemTypeToPriceType ToString).
Abbreviation getPayloadForItem :=
  (CartStoreService.getPayloadForItem ToString deepCopyObject).
Abbreviation saveLineItem :=
  (CartStoreService.saveLineItem ToString getApiVersion getBasicHeaders deepCopyObject createId).
Abbreviation perform :=
  (CartStoreService.perform ToString getApiVersion getBasicHeaders deepCopyObject createId
     isActive).
Abbreviation toggleAutomaticPromotions :=
  (CartStoreService.toggleAutomaticPromotions getBasicHeaders isActive).

(** X1.  For a sales channel and an API version that are primitives,
    and whatever its other arguments are, [createCart] issues a GET
    without a body to the cart route of the sales channel, and its
    headers are the object [getBasicHeaders] built, as it is: no context
    token is added. *)
Theorem createCart_request (salesChannelId additionalParams additionalHeaders : value)
    (w : world) :
  primitive salesChannelId → primitive getApiVersion →
  ∃ r w' h ref,
    returns (createCart salesChannelId additionalParams additionalHeaders) w r w' ∧
    defaulted additionalHeaders h ∧
    method r = GET ∧
    route r = "_proxy/store-api/" +:+ to_string salesChannelId +:+ "/v"
                +:+ to_string getApiVersion +:+ "/checkout/cart" ∧
    data r = None ∧
    own_prop (config r) "headers" = Some (VObj ref Plain (getBasicHeaders h)).
Proof.
  intros _ _.
  destruct (runs_default_object additionalParams w) as (params & wa & Ha).
  destruct (runs_default_object additionalHeaders wa) as (h & wb & Hb).
  eexists _, _, h, _. split_and!.
  - unfold CartStoreService.createCart, CartStoreService.requestConfig,
      CartStoreService.httpClient_get.
    do 4 step. by apply returns_ret.
  - by eapply returns_default_object_defaulted.
  - done.
  - done.
  - done.
  - simpl. by simplify_map_eq.
Qed.

(** X2.  For a sales channel and an API version that are primitives,
    and whatever their other arguments are, [getCart] and [cancelCart]
    issue a request without a body to the route [createCart] uses; run
    from the same state they build the same configuration and differ in
    the method only, GET and DELETE. *)
Theorem getCart_cancelCart_requests
    (salesChannelId contextToken additionalParams additionalHeaders : value) (w : world) :
  primitive salesChannelId → primitive getApiVersion →
  ∃ r r' w',
    returns (getCart salesChannelId contextToken additionalParams additionalHeaders) w r w' ∧
    returns (cancelCart salesChannelId contextToken additionalParams additionalHeaders) w r' w' ∧
    method r = GET ∧ method r' = DELETE ∧
    route r = cartRoute salesChannelId ∧ route r' = route r ∧
    data r = None ∧ data r' = None ∧
    config r' = config r.
Proof.
  intros _ _.
  destruct (runs_default_object additionalParams w) as (params & wa & Ha).
  destruct (runs_default_object additionalHeaders wa) as (h & wb & Hb).
  eexists _, _, _. split_and!.
  - unfold CartStoreService.getCart, CartStoreService.requestConfig,
      CartStoreService.contextHeaders, CartStoreService.httpClient_get.
    do 4 step. by apply returns_ret.
  - unfold CartStoreService.cancelCart, CartStoreService.requestConfig,
      CartStoreService.contextHeaders, CartStoreService.httpClient_delete.
    do 4 step. by apply returns_ret.
  - done.
  - done.
  - done.
  - done.
  - done.
  - done.
  - done.
Qed.

(** X3.  For a sales channel and an API version that are primitives,
    and whatever its other arguments are, [removeLineItems] issues a
    DELETE to the line-item route; the keys travel as they were given,
    empty or not, under [ids] in the [data] of the configuration, and the
    request has no body of its own. *)
Theorem removeLineItems_request
    (salesChannelId contextToken lineItemKeys additionalParams additionalHeaders : value)
    (w : world) :
  primitive salesChannelId → primitive getApiVersion →
  ∃ r w' body,
    returns (removeLineItems salesChannelId contextToken lineItemKeys additionalParams
               additionalHeaders) w r w' ∧
    method r = DELETE ∧
    route r = cartRoute salesChannelId +:+ "/line-item" ∧
    data r = None ∧
    own_prop (config r) "data" = Some body ∧
    ownProps body = Some {[ "ids" := lineItemKeys ]}.
Proof.
  intros _ _.
  destruct (runs_default_object additionalParams w) as (params & wa & Ha).
  destruct (runs_default_object additionalHeaders wa) as (h & wb & Hb).
  eexists _, _, _. split_and!.
  - unfold CartStoreService.removeLineItems, CartStoreService.contextHeaders,
      CartStoreService.httpClient_delete.
    do 5 step. by apply returns_ret.
  - done.
  - done.
  - done.
  - simpl. by simplify_map_eq.
  - done.
Qed.

(** X4.  For a sales channel and an API version that are primitives,
    and whatever its other arguments are, [addPromotionCode] issues a
    POST to the line-item route whose payload holds one line item with
    two fields and no more: [type], which is ['promotion'], and
    [referencedId], which is the code. *)
Theorem addPromotionCode_payload
    (salesChannelId contextToken code additionalParams additionalHeaders : value) (w : world) :
  primitive salesChannelId → primitive getApiVersion →
  ∃ r w' payload items lineItem,
    returns (addPromotionCode salesChannelId contextToken code additionalParams
               additionalHeaders) w r w' ∧
    method r = POST ∧
    route r = cartRoute salesChannelId +:+ "/line-item" ∧
    data r = Some payload ∧
    ownProps payload = Some {[ "items" := items ]} ∧
    ownProps items = Some {[ "0" := lineItem; "length" := VNum 1%float ]} ∧
    ownProps lineItem = Some {[ "type" := VStr "promotion"; "referencedId" := code ]}.
Proof.
  intros _ _.
  destruct (runs_default_object additionalParams w) as (params & wa & Ha).
  destruct (runs_default_object additionalHeaders wa) as (h & wb & Hb).
  eexists _, _, _, _, _. split_and!.
  - unfold CartStoreService.addPromotionCode, CartStoreService.contextHeaders,
      CartStoreService.requestConfig, CartStoreService.httpClient_post, new_array1.
    do 7 step. by apply returns_ret.
  - done.
  - done.
  - done.
  - done.
  - done.
  - done.
Qed.

(** X5.  Whatever its arguments are, [modifyShippingCosts] issues a PATCH
    to a route that does not depend on the sales channel; the sales
    channel travels in the body, which has the two fields
    [salesChannelId] and [shippingCosts] and no more. *)
Theorem modifyShippingCosts_request
    (salesChannelId contextToken shippingCosts additionalHeaders additionalParams : value)
    (w : world) :
  ∃ r w' body,
    returns (modifyShippingCosts salesChannelId contextToken shippingCosts additionalHeaders
               additionalParams) w r w' ∧
    method r = PATCH ∧
    route r = "_proxy/modify-shipping-costs" ∧
    data r = Some body ∧
    ownProps body =
      Some {[ "salesChannelId" := salesChannelId; "shippingCosts" := shippingCosts ]}.
Proof.
  destruct (runs_default_object additionalParams w) as (params & wa & Ha).
  eexists _, _, _. split_and!.
  - unfold CartStoreService.modifyShippingCosts, CartStoreService.contextHeaders,
      CartStoreService.requestConfig, CartStoreService.httpClient_patch.
    do 4 step. by apply returns_ret.
  - done.
  - done.
  - done.
  - done.
Qed.

(** X6.  A request of [saveLineItem] goes to the route
    [removeLineItems] and [addPromotionCode] use for the same sales
    channel, the cart route followed by [/line-item]: what is saved can
    be removed at the same address. *)
Theorem line_item_routes_agree
    (salesChannelId contextToken item additionalParams additionalHeaders : value)
    (w : world) (r : request) (w' : world) :
  returns (saveLineItem salesChannelId contextToken item additionalParams additionalHeaders) w r w' →
  route r = cartRoute salesChannelId +:+ "/line-item" ∧
  ∀ token keys code params headers w1,
    ∃ r1 w1' r2 w2',
      returns (removeLineItems salesChannelId token keys params headers) w1 r1 w1' ∧
      returns (addPromotionCode salesChannelId token code params headers) w1 r2 w2' ∧
      route r1 = route r ∧ route r2 = route r.
Proof.
  intros H. apply saveLineItem_inv in H
    as (? & ? & ? & ? & ? & ? & ? & _ & _ & _ & _ & _ & _ & Hroute & _).
  assert (route r = cartRoute salesChannelId +:+ "/line-item") as Hr.
  { rewrite Hroute. unfold CartStoreService.cartRoute. by rewrite !string_app_assoc. }
  split; [done|]. intros token keys code params headers w1.
  destruct (runs_default_object params w1) as (p & wa & Ha).
  destruct (runs_default_object headers wa) as (h & wb & Hb).
  eexists _, _, _, _. split_and!.
  - unfold CartStoreService.removeLineItems, CartStoreService.contextHeaders,
      CartStoreService.httpClient_delete.
    do 5 step. by apply returns_ret.
  - unfold CartStoreService.addPromotionCode, CartStoreService.contextHeaders,
      CartStoreService.requestConfig, CartStoreService.httpClient_post, new_array1.
    do 7 step. by apply returns_ret.
  - by rewrite Hr.
  - by rewrite Hr.
Qed.

(** X7.  [saveLineItem] throws a [TypeError], and issues no request, when
    the item is [null] or [undefined], whatever the other arguments
    are. *)
Theorem saveLineItem_throws_on_missing_item
    (salesChannelId contextToken additionalParams additionalHeaders : value) (w : world) :
  throws (saveLineItem salesChannelId contextToken VNull additionalParams additionalHeaders) w ∧
  throws (saveLineItem salesChannelId contextToken VUndefined additionalParams
            additionalHeaders) w.
Proof.
  destruct (runs_default_object additionalParams w) as (params & wa & Ha).
  destruct (runs_default_object additionalHeaders wa) as (h & wb & Hb).
  split; unfold CartStoreService.saveLineItem;
    (eapply throws_bind; [exact Ha|]); (eapply throws_bind; [exact Hb|]);
    apply throws_now; by apply throws_get.
Qed.

(** X8.  [saveLineItem] throws a [TypeError], and issues no request, for
    an item that is not a new product item and whose [price.unitPrice] or
    [priceDefinition.price] cannot be read because [price] or
    [priceDefinition] is missing or [null]. *)
Theorem saveLineItem_throws_without_prices
    (salesChannelId contextToken item additionalParams additionalHeaders : value) (w : world) :
  ¬ (isNew item ∧ isProduct item) →
  unitPriceOf item = Throw TypeError ∨ definedPriceOf item = Throw TypeError →
  throws (saveLineItem salesChannelId contextToken item additionalParams additionalHeaders) w.
Proof.
  intros Hnot Hprices.
  destruct (runs_default_object additionalParams w) as (params & wa & Ha).
  destruct (runs_default_object additionalHeaders wa) as (h & wb & Hb).
  unfold CartStoreService.saveLineItem.
  eapply throws_bind; [exact Ha|]. eapply throws_bind; [exact Hb|].
  destruct (get_prop_cases item "_isNew") as [[flag Hflag] | Hnull];
    [| apply throws_now, throws_get; by apply get_prop_nullish].
  destruct (get_prop_any _ _ "type" _ Hflag) as [type Htype].
  destruct (get_prop_any _ _ "identifier" _ Hflag) as [identifier Hidentifier].
  destruct (get_prop_any _ _ "id" _ Hflag) as [itemId HitemId].
  eapply throws_bind; [by apply returns_get|].
  eapply (throws_bind _ _ _
            (if to_boolean flag then VBool (strict_equals type (VStr "product")) else flag) wb).
  { destruct (to_boolean flag); unfold CartStoreService.getLineItemTypes;
      [repeat step | ]; by apply returns_ret. }
  eapply throws_bind; [by apply returns_get|].
  eapply (throws_bind _ _ _
            (if to_boolean identifier then identifier
             else if to_boolean itemId then itemId else (createId wb).1)
            (if to_boolean identifier then wb
             else if to_boolean itemId then wb else (createId wb).2)).
  { destruct (to_boolean identifier); [by apply returns_ret|]. step.
    destruct (to_boolean itemId); [by apply returns_ret|].
    apply returns_utils_createId. by destruct (createId wb). }
  eapply throws_bind; [by apply returns_ret|].
  eapply throws_bind; [by apply returns_new_object|].
  apply throws_now.
  assert (to_boolean (if to_boolean flag then VBool (strict_equals type (VStr "product"))
                      else flag) = false) as Hinp.
  { destruct (to_boolean flag) eqn:Htruthy; [|done]. simpl.
    destruct (strict_equals type (VStr "product")) eqn:Hproduct; [|done].
    destruct Hnot. split; [by exists flag | by exists type]. }
  unfold CartStoreService.getPayloadForItem. rewrite Hinp. simpl.
  apply throws_now.
  destruct (get_prop_cases item "price") as [[price Hprice] | Hnull];
    [| rewrite (get_prop_nullish _ "_isNew" Hnull) in Hflag; done].
  destruct (get_prop_cases price "unitPrice") as [[unitPrice Hunit] | Hnull];
    [| eapply throws_bind; [by apply returns_get|]; apply throws_now, throws_get;
       by apply get_prop_nullish].
  destruct (get_prop_any _ _ "priceDefinition" _ Hflag) as [pd Hpd].
  destruct Hprices as [Hu | Hp].
  { unfold unitPriceOf in Hu. rewrite Hprice in Hu. simpl in Hu. congruence. }
  unfold definedPriceOf in Hp. rewrite Hpd in Hp. simpl in Hp.
  do 3 (eapply throws_bind; [by apply returns_get|]).
  apply throws_now. by apply throws_get.
Qed.

(** The shape of what [getPayloadForItem] returns. *)
Lemma getPayloadForItem_shape (item salesChannelId isNewProductItem id : value) (w : world)
    (payload : value) (w' : world) :
  returns (getPayloadForItem item salesChannelId isNewProductItem id) w payload w' →
  ∃ label quantity type description dummyPrice r1 r2 r3,
    get_prop item "label" = Normal label ∧
    get_prop item "quantity" = Normal quantity ∧
    get_prop item "type" = Normal type ∧
    get_prop item "description" = Normal description ∧
    payload =
      VObj r3 Plain
        {[ "items" :=
             VObj r2 Array
               {[ "0" :=
                    VObj r1 Plain
                      {[ "id" := id;
                         "referencedId" := id;
                         "label" := label;
                         "quantity" := quantity;
                         "type" := type;
                         "description" := description;
                         "priceDefinition" := dummyPrice;
                         "stackable" := VBool true;
                         "removable" := VBool true;
                         "salesChannelId" := salesChannelId ]};
                  "length" := VNum 1%float ]} ]}.
Proof.
  unfold CartStoreService.getPayloadForItem. intros H.
  apply returns_bind in H as (dummyPrice & w1 & _ & H). cbv beta in H.
  run_all. by eexists _, _, _, _, dummyPrice, _, _, _.
Qed.

(** X9.  The line item in the payload of a request of [saveLineItem] has
    ten fields and no more: [label], [quantity], [type] and
    [description] are read from the item, absent ones as [undefined];
    [stackable] and [removable] are [true] whatever the item says;
    [salesChannelId] is the argument of the call. *)
Theorem saveLineItem_payload_fields
    (salesChannelId contextToken item additionalParams additionalHeaders : value)
    (w : world) (r : request) (w' : world) :
  returns (saveLineItem salesChannelId contextToken item additionalParams additionalHeaders) w r w' →
  ∃ payload items lineItem fields label quantity type description,
    data r = Some payload ∧
    ownProps payload = Some {[ "items" := items ]} ∧
    ownProps items = Some {[ "0" := lineItem; "length" := VNum 1%float ]} ∧
    ownProps lineItem = Some fields ∧
    dom fields =
      {[ "id"; "referencedId"; "label"; "quantity"; "type"; "description"; "priceDefinition";
         "stackable"; "removable"; "salesChannelId" ]} ∧
    get_prop item "label" = Normal label ∧ fields !! "label" = Some label ∧
    get_prop item "quantity" = Normal quantity ∧ fields !! "quantity" = Some quantity ∧
    get_prop item "type" = Normal type ∧ fields !! "type" = Some type ∧
    get_prop item "description" = Normal description ∧
    fields !! "description" = Some description ∧
    fields !! "stackable" = Some (VBool true) ∧
    fields !! "removable" = Some (VBool true) ∧
    fields !! "salesChannelId" = Some salesChannelId.
Proof.
  intros H. apply saveLineItem_inv in H
    as (? & ? & ? & ? & payload & ? & ? & _ & _ & _ & _ & Hpayload & _ & _ & Hdata & _).
  apply getPayloadForItem_shape in Hpayload
    as (label & quantity & type & description & pd & r1 & r2 & r3 & Hlabel & Hquantity & Htype
        & Hdescription & ->).
  eexists _, _, _, _, label, quantity, type, description.
  split_and!;
    first [ done | reflexivity | by simplify_map_eq
          | rewrite !dom_insert_L, dom_singleton_L; set_solver ].
Qed.

(** How the price definition of a payload is made when the prices
    differ. *)
Lemma getPayloadForItem_definition (item salesChannelId isNewProductItem id : value) (w : world)
    (payload : value) (w' : world) :
  returns (getPayloadForItem item salesChannelId isNewProductItem id) w payload w' →
  to_boolean isNewProductItem = false →
  priceDiffers item →
  ∃ stored taxRules quantity type ref c copied w1 w2,
    get_prop item "priceDefinition" = Normal stored ∧
    get_prop stored "taxRules" = Normal taxRules ∧
    get_prop item "quantity" = Normal quantity ∧
    get_prop item "type" = Normal type ∧
    returns (deepCopyObject stored) w1 (VObj ref c copied) w2 ∧
    payloadField payload "priceDefinition" =
      Some (VObj ref c
              (<[ "type" := get_computed mapTypes (to_string type) ]>
                 (<[ "quantity" := quantity ]> (<[ "taxRules" := taxRules ]> copied)))).
Proof.
  unfold CartStoreService.getPayloadForItem. intros H Hinp Hdiffer.
  apply returns_bind in H as (dummyPrice & w1 & Hdummy & H). cbv beta in H.
  run_all. rewrite Hinp in Hdummy. simpl in Hdummy. run_all.
  match goal with H : returns (if ?b then _ else _) _ _ _ |- _ => destruct b eqn:Hcmp end.
  - run_all.
    repeat match goal with
      | H : returns (mapLineItemTypeToPriceType _) _ _ _ |- _ =>
          apply returns_mapLineItemTypeToPriceType in H; destruct H as [-> ->]
      | H : set_prop _ _ _ = Normal _ |- _ =>
          apply set_prop_Normal in H; destruct H as (? & ? & ? & -> & ? & ?)
      end.
    simplify_eq. same_reads.
    eexists _, _, _, _, _, _, _, _, _. split_and!; try eassumption. reflexivity.
  - apply negb_false_iff in Hcmp. destruct (priceAgrees_not_priceDiffers item); [|done].
    eexists _, _. split_and!; [eapply prices_read; eassumption.. | done].
Qed.

(** X10.  When [saveLineItem] sends a price definition, it sends the
    object [deepCopyObject] returned for the stored one, changed in three
    fields only: [taxRules] is the very value of the stored definition,
    not its copy, [quantity] is the quantity of the item, and [type] the
    mapped price type; every other field is as it was copied. *)
Theorem saveLineItem_priceDefinition_overrides
    (salesChannelId contextToken item additionalParams additionalHeaders : value)
    (w : world) (r : request) (w' : world) :
  returns (saveLineItem salesChannelId contextToken item additionalParams additionalHeaders) w r w' →
  ¬ (isNew item ∧ isProduct item) →
  priceDiffers item →
  ∃ stored taxRules ref c copied sent w1 w2,
    get_prop item "priceDefinition" = Normal stored ∧
    get_prop stored "taxRules" = Normal taxRules ∧
    returns (deepCopyObject stored) w1 (VObj ref c copied) w2 ∧
    lineItemField r "priceDefinition" = Some (VObj ref c sent) ∧
    sent !! "taxRules" = Some taxRules ∧
    ∀ k, k ∉ ["taxRules"; "quantity"; "type"] → sent !! k = copied !! k.
Proof.
  intros H Hnot Hdiffer. apply saveLineItem_inv in H
    as (flag & inp & ? & ? & payload & ? & ? & Hflag & Hinp & _ & _ & Hpayload & _ & _ & Hdata
        & _).
  assert (to_boolean inp = false) as Hfalse.
  { destruct (to_boolean flag) eqn:Htruthy; [|by subst inp].
    destruct Hinp as (type & Htype & ->). simpl.
    destruct (strict_equals type (VStr "product")) eqn:Hproduct; [|done].
    destruct Hnot. split; [by exists flag | by exists type]. }
  destruct (getPayloadForItem_definition _ _ _ _ _ _ _ Hpayload Hfalse Hdiffer)
    as (stored & taxRules & quantity & type & ref & c & copied & w1 & w2 & Hstored & Htax & _ & _
        & Hcopy & Hsent).
  eexists stored, taxRules, ref, c, copied, _, w1, w2.
  split_and!; [done | done | done | by rewrite (lineItemField_data _ _ _ Hdata) | |].
  - rewrite !lookup_insert_ne by done. apply lookup_insert_eq.
  - intros k Hk. apply not_elem_of_cons in Hk as [Ht Hk].
    apply not_elem_of_cons in Hk as [Hq Hk]. apply not_elem_of_cons in Hk as [Hy _].
    by rewrite !lookup_insert_ne.
Qed.

(** X11.  In every request of an operation on an existing cart the
    configuration carries the parameters the caller gave, or a fresh
    empty object when there were none, and the headers are those of
    [getBasicHeaders] with the context token written over them: every
    header of another name goes out as [getBasicHeaders] made it. *)
Theorem perform_config (op : cartOperation) (w : world) (r : request) (w' : world) :
  returns (perform op) w r w' →
  ∃ p h ref,
    defaulted (additionalParamsOf op) p ∧
    headersArgument op h ∧
    own_prop (config r) "additionalParams" = Some p ∧
    own_prop (config r) "headers" =
      Some (VObj ref Plain (<[ "sw-context-token" := contextTokenOf op ]> (getBasicHeaders h))) ∧
    ∀ name, name ≠ "sw-context-token" → header r name = getBasicHeaders h !! name.
Proof.
  intros H.
  destruct op; simpl in H;
    unfold CartStoreService.getCart, CartStoreService.cancelCart,
      CartStoreService.removeLineItems, CartStoreService.saveLineItem,
      CartStoreService.addPromotionCode, CartStoreService.modifyShippingCosts,
      CartStoreService.disableAutomaticPromotions, CartStoreService.enableAutomaticPromotions,
      CartStoreService.contextHeaders, CartStoreService.requestConfig,
      CartStoreService.httpClient_get, CartStoreService.httpClient_delete,
      CartStoreService.httpClient_post, CartStoreService.httpClient_patch,
      CartStoreService.getRouteForItem in H;
    run_all;
    repeat match goal with
      | H : returns (if ?b then _ else _) _ _ _ |- _ => destruct b; run_all
      | H : returns (default_object _) _ _ _ |- _ =>
          apply returns_default_object_defaulted in H
      end;
    eexists _, _, _;
    (split_and!;
       [ eassumption
       | simpl; first [eassumption | reflexivity]
       | simpl; by simplify_map_eq
       | simpl; by simplify_map_eq
       | intros name Hname; unfold header; simpl; by simplify_map_eq ]).
Qed.

(** X12.  [saveLineItem] does not call [createId] for an item that has a
    truthy [identifier] or a truthy [id]: the call does the same, and
    leaves the same state, whatever the generator is. *)
Theorem saveLineItem_createId_unused (createId' : world → value * world)
    (salesChannelId contextToken item additionalParams additionalHeaders : value) (w : world) :
  (∃ identifier, get_prop item "identifier" = Normal identifier ∧ to_boolean identifier = true) ∨
  (∃ itemId, get_prop item "id" = Normal itemId ∧ to_boolean itemId = true) →
  saveLineItem salesChannelId contextToken item additionalParams additionalHeaders w =
  CartStoreService.saveLineItem ToString getApiVersion getBasicHeaders deepCopyObject createId'
    salesChannelId contextToken item additionalParams additionalHeaders w.
Proof.
  intros Hid. unfold CartStoreService.saveLineItem.
  do 5 (apply bind_eq; [reflexivity | intros ? ? ?]).
  apply bind_eq.
  - match goal with H : returns (get item "identifier") _ ?a _ |- _ =>
      apply returns_get in H as [Hidentifier ->]; destruct (to_boolean a) eqn:Htruthy
    end; [done|].
    destruct Hid as [(identifier & Hidentifier' & Htrue) | (itemId & HitemId & Htrue)].
    { same_reads. congruence. }
    apply bind_eq; [done|]. intros a' w1' Ha'. apply returns_get in Ha' as [Ha' ->].
    same_reads. by rewrite Htrue.
  - done.
Qed.

(** X13.  [saveLineItem] does not call [deepCopyObject] for a new product
    item, nor for an item whose two prices agree: the call does the same,
    and leaves the same state, whatever the copy utility is. *)
Theorem saveLineItem_deepCopyObject_unused (deepCopyObject' : value → M value)
    (salesChannelId contextToken item additionalParams additionalHeaders : value) (w : world) :
  (isNew item ∧ isProduct item) ∨ priceAgrees item →
  saveLineItem salesChannelId contextToken item additionalParams additionalHeaders w =
  CartStoreService.saveLineItem ToString getApiVersion getBasicHeaders deepCopyObject' createId
    salesChannelId contextToken item additionalParams additionalHeaders w.
Proof.
  intros Hcase. unfold CartStoreService.saveLineItem.
  do 3 (apply bind_eq; [reflexivity | intros ? ? ?]).
  apply bind_eq; [reflexivity | intros inp ? Hinp].
  do 4 (apply bind_eq; [reflexivity | intros ? ? ?]).
  apply bind_eq; [|done].
  unfold CartStoreService.getPayloadForItem. apply bind_eq; [|done].
  destruct (to_boolean inp) eqn:Htruthy; [done|]. simpl.
  destruct Hcase as [[(flag & Hflag & Htrue) (type & Htype & Hproduct)] | Hagree].
  { match goal with H : returns (get item "_isNew") _ ?a _ |- _ =>
      apply returns_get in H as [Hflag' ->] end.
    same_reads. rewrite Htrue in Hinp. unfold CartStoreService.getLineItemTypes in Hinp.
    run_all. same_reads.
    match goal with H : get_prop lineItemConstants_types _ = _ |- _ =>
      vm_compute in H; injection H as <- end.
    simpl in Htruthy. congruence. }
  destruct Hagree as (u & p & Hu & Hp & Heq).
  apply bind_eq; [reflexivity | intros price ? Hprice].
  apply returns_get in Hprice as [Hprice ->].
  apply bind_eq; [reflexivity | intros unitPrice ? Hunit].
  apply returns_get in Hunit as [Hunit ->].
  apply bind_eq; [reflexivity | intros stored ? Hstored].
  apply returns_get in Hstored as [Hstored ->].
  apply bind_eq; [reflexivity | intros definedPrice ? Hdefined].
  apply returns_get in Hdefined as [Hdefined ->].
  destruct (prices_read item price unitPrice stored definedPrice Hprice Hunit Hstored Hdefined)
    as [Hu' Hp'].
  same_reads. by rewrite Heq.
Qed.

(** X14.  [mapLineItemTypeToPriceType] returns a string for the three
    mapped keys and for nothing else: ['absolute'] exactly for the key
    ['credit'], ['quantity'] exactly for the keys ['product'] and
    ['custom']. *)
Theorem mapLineItemTypeToPriceType_price_types (itemType : value) (w : world) :
  (returns (mapLineItemTypeToPriceType itemType) w (VStr "absolute") w ↔
     to_string itemType = "credit") ∧
  (returns (mapLineItemTypeToPriceType itemType) w (VStr "quantity") w ↔
     to_string itemType = "product" ∨ to_string itemType = "custom") ∧
  ((∃ s, returns (mapLineItemTypeToPriceType itemType) w (VStr s) w) ↔
     to_string itemType = "product" ∨ to_string itemType = "custom" ∨
     to_string itemType = "credit").
Proof.
  assert (∀ s, returns (mapLineItemTypeToPriceType itemType) w (VStr s) w ↔
               get_computed mapTypes (to_string itemType) = VStr s) as Hret.
  { intros s. rewrite returns_mapLineItemTypeToPriceType.
    split; [by intros [-> _] | by intros ->]. }
  pose proof (object_prototype_not_string (to_string itemType)) as Hproto.
  split_and!.
  - rewrite Hret, get_computed_mapTypes.
    repeat case_decide; split; intros Heq;
      first [ done | congruence | by destruct (Hproto _ Heq) ].
  - rewrite Hret, get_computed_mapTypes.
    repeat case_decide; split; intros Heq;
      first [ done | congruence | by destruct (Hproto _ Heq) | by destruct Heq; congruence
            | by left | by right ].
  - split.
    + intros [s Heq]. apply Hret in Heq. rewrite get_computed_mapTypes in Heq.
      repeat case_decide; auto. by destruct (Hproto _ Heq).
    + intros [Heq | [Heq | Heq]]; [exists "quantity" | exists "quantity" | exists "absolute"];
        apply Hret; rewrite get_computed_mapTypes, Heq; reflexivity.
Qed.

(** X15.  With the feature flag active a toggle sends [salesChannelId]
    whatever the parameters are: the field of the parameters when they
    are an object, [undefined] when no parameters were passed; with
    [null] for parameters it throws a [TypeError]. *)
Theorem toggleAutomaticPromotions_active_body (which : toggle)
    (contextToken additionalParams additionalHeaders : value) (w : world) :
  isActive "FEATURE_NEXT_10058" = true →
  (additionalParams = VNull →
     throws (toggleAutomaticPromotions which contextToken additionalParams additionalHeaders) w) ∧
  (additionalParams = VUndefined →
     ∃ r w',
       returns (toggleAutomaticPromotions which contextToken additionalParams additionalHeaders)
         w r w' ∧
       method r = PATCH ∧
       bodyProps r = Some {[ "salesChannelId" := VUndefined ]}) ∧
  (∀ salesChannelId,
     get_prop additionalParams "salesChannelId" = Normal salesChannelId →
     ∃ r w',
       returns (toggleAutomaticPromotions which contextToken additionalParams additionalHeaders)
         w r w' ∧
       method r = PATCH ∧
       bodyProps r = Some {[ "salesChannelId" := salesChannelId ]}).
Proof.
  intros Hon.
  destruct (runs_default_object additionalParams w) as (params & wa & Ha).
  destruct (runs_default_object additionalHeaders wa) as (h & wb & Hb).
  assert (∀ salesChannelId,
            get_prop params "salesChannelId" = Normal salesChannelId →
            ∃ r w',
              returns (toggleAutomaticPromotions which contextToken additionalParams
                         additionalHeaders) w r w' ∧
              method r = PATCH ∧
              bodyProps r = Some {[ "salesChannelId" := salesChannelId ]}) as Hsend.
  { intros salesChannelId Hsc.
    destruct which; simpl;
      unfold CartStoreService.disableAutomaticPromotions,
        CartStoreService.enableAutomaticPromotions, CartStoreService.contextHeaders,
        CartStoreService.requestConfig, CartStoreService.promotionToggleData,
        CartStoreService.httpClient_patch;
      rewrite Hon;
      (eexists _, _; split_and!;
         [ do 3 step;
           (apply returns_bind; eexists _, _; split;
              [do 2 step; apply returns_set; split; reflexivity|]);
           cbv beta; step; by apply returns_ret
         | done
         | simpl; by rewrite insert_empty ]). }
  split_and!.
  - intros ->. apply returns_ret in Ha as [-> ->].
    destruct which; simpl;
      unfold CartStoreService.disableAutomaticPromotions,
        CartStoreService.enableAutomaticPromotions, CartStoreService.contextHeaders,
        CartStoreService.promotionToggleData;
      rewrite Hon;
      (eapply throws_bind; [by apply returns_ret|]); (eapply throws_bind; [exact Hb|]);
      (eapply throws_bind; [by apply returns_new_object|]); apply throws_now;
      (eapply throws_bind; [by apply returns_new_object|]); apply throws_now;
      by apply throws_get.
  - intros ->. apply Hsend. by apply returns_new_object in Ha as [-> _].
  - intros salesChannelId Hsc. apply Hsend.
    destruct additionalParams; try done; by apply returns_ret in Ha as [-> _].
Qed.

(** X16.  The two enumerations fit: for every line item type that
    [getLineItemTypes] lists, [mapLineItemTypeToPriceType] returns a price
    type that [getLineItemPriceTypes] lists, except for the promotion
    type, for which it returns [undefined]. *)
Theorem mapLineItemTypeToPriceType_on_enumeration (name : string) (type : value) (w : world) :
  own_prop lineItemConstants_types name = Some type →
  ∃ priceType,
    returns (mapLineItemTypeToPriceType type) w priceType w ∧
    if decide (name = "PROMOTION") then priceType = VUndefined
    else ∃ priceName, own_prop lineItemConstants_priceTypes priceName = Some priceType.
Proof.
  unfold lineItemConstants_types. simpl. intros Htype.
  repeat (rewrite lookup_insert in Htype; case_decide;
          [injection Htype as <-; subst name; eexists; split; [reflexivity|] |]).
  - by exists "QUANTITY".
  - by exists "ABSOLUTE".
  - by exists "QUANTITY".
  - rewrite lookup_singleton in Htype. case_decide; [|done].
    injection Htype as <-. subst name. eexists. split; reflexivity.
Qed.

End further.

(** ** The further properties on the fixtures *)

Lemma createCart_request_witness :
  primitive Fixture.salesChannelId ∧
  primitive Fixture.getApiVersion ∧
  ∃ r w' h ref,
    returns (CartStoreService.createCart Fixture.ToString Fixture.getApiVersion
               Fixture.getBasicHeaders Fixture.salesChannelId VUndefined VUndefined)
      Fixture.w0 r w' ∧
    defaulted VUndefined h ∧
    method r = GET ∧
    route r = Fixture.cartRoute ∧
    data r = None ∧
    own_prop (config r) "headers" = Some (VObj ref Plain (Fixture.getBasicHeaders h)).
Proof.
  split_and!; [exact I | exact I |].
  exact (createCart_request Fixture.ToString Fixture.getApiVersion Fixture.getBasicHeaders
           Fixture.salesChannelId VUndefined VUndefined Fixture.w0 I I).
Defined.

Lemma getCart_cancelCart_requests_witness :
  primitive Fixture.salesChannelId ∧
  primitive Fixture.getApiVersion ∧
  ∃ r r' w',
    returns (CartStoreService.getCart Fixture.ToString Fixture.getApiVersion
               Fixture.getBasicHeaders Fixture.salesChannelId Fixture.contextToken VUndefined
               VUndefined) Fixture.w0 r w' ∧
    returns (CartStoreService.cancelCart Fixture.ToString Fixture.getApiVersion
               Fixture.getBasicHeaders Fixture.salesChannelId Fixture.contextToken VUndefined
               VUndefined) Fixture.w0 r' w' ∧
    method r = GET ∧ method r' = DELETE ∧
    route r = Fixture.cartRoute ∧ route r' = route r ∧
    data r = None ∧ data r' = None ∧
    config r' = config r.
Proof.
  split_and!; [exact I | exact I |].
  exact (getCart_cancelCart_requests Fixture.ToString Fixture.getApiVersion
           Fixture.getBasicHeaders Fixture.salesChannelId Fixture.contextToken VUndefined
           VUndefined Fixture.w0 I I).
Defined.

Lemma removeLineItems_request_witness :
  primitive Fixture.salesChannelId ∧
  primitive Fixture.getApiVersion ∧
  ∃ r w' body,
    returns (CartStoreService.removeLineItems Fixture.ToString Fixture.getApiVersion
               Fixture.getBasicHeaders Fixture.salesChannelId Fixture.contextToken
               Fixture.lineItemKeys VUndefined VUndefined) Fixture.w0 r w' ∧
    method r = DELETE ∧
    route r = Fixture.lineItemRoute ∧
    data r = None ∧
    own_prop (config r) "data" = Some body ∧
    ownProps body = Some {[ "ids" := Fixture.lineItemKeys ]}.
Proof.
  split_and!; [exact I | exact I |].
  exact (removeLineItems_request Fixture.ToString Fixture.getApiVersion
           Fixture.getBasicHeaders Fixture.salesChannelId Fixture.contextToken
           Fixture.lineItemKeys VUndefined VUndefined Fixture.w0 I I).
Defined.

Lemma addPromotionCode_payload_witness :
  primitive Fixture.salesChannelId ∧
  primitive Fixture.getApiVersion ∧
  ∃ r w' payload items lineItem,
    returns (CartStoreService.addPromotionCode Fixture.ToString Fixture.getApiVersion
               Fixture.getBasicHeaders Fixture.salesChannelId Fixture.contextToken
               (VStr "SUMMER") VUndefined VUndefined) Fixture.w0 r w' ∧
    method r = POST ∧
    route r = Fixture.lineItemRoute ∧
    data r = Some payload ∧
    ownProps payload = Some {[ "items" := items ]} ∧
    ownProps items = Some {[ "0" := lineItem; "length" := VNum 1%float ]} ∧
    ownProps lineItem = Some {[ "type" := VStr "promotion"; "referencedId" := VStr "SUMMER" ]}.
Proof.
  split_and!; [exact I | exact I |].
  exact (addPromotionCode_payload Fixture.ToString Fixture.getApiVersion
           Fixture.getBasicHeaders Fixture.salesChannelId Fixture.contextToken
           (VStr "SUMMER") VUndefined VUndefined Fixture.w0 I I).
Defined.

Lemma line_item_routes_agree_witness :
  returns (Fixture.saveLineItem Fixture.salesChannelId Fixture.contextToken Fixture.editedItem
             VUndefined VUndefined) Fixture.w0 Fixture.editedRequest (Fixture.after 110 0) ∧
  route Fixture.editedRequest =
    CartStoreService.cartRoute Fixture.ToString Fixture.getApiVersion Fixture.salesChannelId
      +:+ "/line-item" ∧
  ∀ token keys code params headers w1,
    ∃ r1 w1' r2 w2',
      returns (CartStoreService.removeLineItems Fixture.ToString Fixture.getApiVersion
                 Fixture.getBasicHeaders Fixture.salesChannelId token keys params headers)
        w1 r1 w1' ∧
      returns (CartStoreService.addPromotionCode Fixture.ToString Fixture.getApiVersion
                 Fixture.getBasicHeaders Fixture.salesChannelId token code params headers)
        w1 r2 w2' ∧
      route r1 = route Fixture.editedRequest ∧ route r2 = route Fixture.editedRequest.
Proof.
  split; [vm_compute; reflexivity|].
  apply (line_item_routes_agree Fixture.ToString Fixture.getApiVersion Fixture.getBasicHeaders
           Fixture.deepCopyObject Fixture.createId Fixture.salesChannelId Fixture.contextToken
           Fixture.editedItem VUndefined VUndefined Fixture.w0 Fixture.editedRequest
           (Fixture.after 110 0)).
  vm_compute. reflexivity.
Defined.

Lemma saveLineItem_throws_without_prices_witness :
  ¬ (isNew Fixture.pricelessItem ∧ isProduct Fixture.pricelessItem) ∧
  (unitPriceOf Fixture.pricelessItem = Throw TypeError ∨
   definedPriceOf Fixture.pricelessItem = Throw TypeError) ∧
  throws (Fixture.saveLineItem Fixture.salesChannelId Fixture.contextToken Fixture.pricelessItem
            VUndefined VUndefined) Fixture.w0.
Proof.
  assert (¬ (isNew Fixture.pricelessItem ∧ isProduct Fixture.pricelessItem)) as Hnot.
  { intros [(flag & Hflag & Htrue) _]. vm_compute in Hflag. injection Hflag as <-.
    discriminate. }
  assert (unitPriceOf Fixture.pricelessItem = Throw TypeError ∨
          definedPriceOf Fixture.pricelessItem = Throw TypeError) as Hprices.
  { left. vm_compute. reflexivity. }
  split_and!; [done.. |].
  exact (saveLineItem_throws_without_prices Fixture.ToString Fixture.getApiVersion
           Fixture.getBasicHeaders Fixture.deepCopyObject Fixture.createId
           Fixture.salesChannelId Fixture.contextToken Fixture.pricelessItem VUndefined
           VUndefined Fixture.w0 Hnot Hprices).
Defined.

Lemma saveLineItem_payload_fields_witness :
  returns (Fixture.saveLineItem Fixture.salesChannelId Fixture.contextToken Fixture.editedItem
             VUndefined VUndefined) Fixture.w0 Fixture.editedRequest (Fixture.after 110 0) ∧
  ∃ payload items lineItem fields label quantity type description,
    data Fixture.editedRequest = Some payload ∧
    ownProps payload = Some {[ "items" := items ]} ∧
    ownProps items = Some {[ "0" := lineItem; "length" := VNum 1%float ]} ∧
    ownProps lineItem = Some fields ∧
    dom fields =
      {[ "id"; "referencedId"; "label"; "quantity"; "type"; "description"; "priceDefinition";
         "stackable"; "removable"; "salesChannelId" ]} ∧
    get_prop Fixture.editedItem "label" = Normal label ∧ fields !! "label" = Some label ∧
    get_prop Fixture.editedItem "quantity" = Normal quantity ∧
    fields !! "quantity" = Some quantity ∧
    get_prop Fixture.editedItem "type" = Normal type ∧ fields !! "type" = Some type ∧
    get_prop Fixture.editedItem "description" = Normal description ∧
    fields !! "description" = Some description ∧
    fields !! "stackable" = Some (VBool true) ∧
    fields !! "removable" = Some (VBool true) ∧
    fields !! "salesChannelId" = Some Fixture.salesChannelId.
Proof.
  split; [vm_compute; reflexivity|].
  apply (saveLineItem_payload_fields Fixture.ToString Fixture.getApiVersion
           Fixture.getBasicHeaders Fixture.deepCopyObject Fixture.createId
           Fixture.salesChannelId Fixture.contextToken Fixture.editedItem VUndefined VUndefined
           Fixture.w0 Fixture.editedRequest (Fixture.after 110 0)).
  vm_compute. reflexivity.
Defined.

Lemma saveLineItem_priceDefinition_overrides_witness :
  returns (Fixture.saveLineItem Fixture.salesChannelId Fixture.contextToken Fixture.editedItem
             VUndefined VUndefined) Fixture.w0 Fixture.editedRequest (Fixture.after 110 0) ∧
  ¬ (isNew Fixture.editedItem ∧ isProduct Fixture.editedItem) ∧
  priceDiffers Fixture.editedItem ∧
  ∃ stored taxRules ref c copied sent w1 w2,
    get_prop Fixture.editedItem "priceDefinition" = Normal stored ∧
    get_prop stored "taxRules" = Normal taxRules ∧
    returns (Fixture.deepCopyObject stored) w1 (VObj ref c copied) w2 ∧
    lineItemField Fixture.editedRequest "priceDefinition" = Some (VObj ref c sent) ∧
    sent !! "taxRules" = Some taxRules ∧
    ∀ k, k ∉ ["taxRules"; "quantity"; "type"] → sent !! k = copied !! k.
Proof.
  assert (returns (Fixture.saveLineItem Fixture.salesChannelId Fixture.contextToken
                     Fixture.editedItem VUndefined VUndefined) Fixture.w0 Fixture.editedRequest
            (Fixture.after 110 0)) as Hrun by (vm_compute; reflexivity).
  assert (¬ (isNew Fixture.editedItem ∧ isProduct Fixture.editedItem)) as Hnot.
  { intros [(flag & Hflag & Htrue) _]. vm_compute in Hflag. injection Hflag as <-.
    discriminate. }
  assert (priceDiffers Fixture.editedItem) as Hdiffer.
  { exists (VNum 10%float), (VNum 5%float). split_and!; vm_compute; reflexivity. }
  split_and!; [done.. |].
  exact (saveLineItem_priceDefinition_overrides Fixture.ToString Fixture.getApiVersion
           Fixture.getBasicHeaders Fixture.deepCopyObject Fixture.createId
           Fixture.salesChannelId Fixture.contextToken Fixture.editedItem VUndefined VUndefined
           Fixture.w0 Fixture.editedRequest (Fixture.after 110 0) Hrun Hnot Hdiffer).
Defined.

Lemma perform_config_witness :
  returns (Fixture.perform (SaveLineItem Fixture.salesChannelId Fixture.contextToken
                              Fixture.editedItem VUndefined VUndefined)) Fixture.w0
    Fixture.editedRequest (Fixture.after 110 0) ∧
  ∃ p h ref,
    defaulted VUndefined p ∧
    defaulted VUndefined h ∧
    own_prop (config Fixture.editedRequest) "additionalParams" = Some p ∧
    own_prop (config Fixture.editedRequest) "headers" =
      Some (VObj ref Plain
              (<[ "sw-context-token" := Fixture.contextToken ]> (Fixture.getBasicHeaders h))) ∧
    ∀ name, name ≠ "sw-context-token" →
            header Fixture.editedRequest name = Fixture.getBasicHeaders h !! name.
Proof.
  split; [vm_compute; reflexivity|].
  apply (perform_config Fixture.ToString Fixture.getApiVersion Fixture.getBasicHeaders
           Fixture.deepCopyObject Fixture.createId Fixture.isActive
           (SaveLineItem Fixture.salesChannelId Fixture.contextToken Fixture.editedItem
              VUndefined VUndefined)
           Fixture.w0 Fixture.editedRequest (Fixture.after 110 0)).
  vm_compute. reflexivity.
Defined.

Lemma saveLineItem_createId_unused_witness :
  ((∃ identifier,
      get_prop Fixture.editedItem "identifier" = Normal identifier ∧
      to_boolean identifier = true) ∨
   (∃ itemId, get_prop Fixture.editedItem "id" = Normal itemId ∧ to_boolean itemId = true)) ∧
  Fixture.saveLineItem Fixture.salesChannelId Fixture.contextToken Fixture.editedItem VUndefined
    VUndefined Fixture.w0 =
  CartStoreService.saveLineItem Fixture.ToString Fixture.getApiVersion Fixture.getBasicHeaders
    Fixture.deepCopyObject Fixture.otherCreateId Fixture.salesChannelId Fixture.contextToken
    Fixture.editedItem VUndefined VUndefined Fixture.w0.
Proof.
  assert ((∃ identifier,
             get_prop Fixture.editedItem "identifier" = Normal identifier ∧
             to_boolean identifier = true) ∨
          (∃ itemId, get_prop Fixture.editedItem "id" = Normal itemId ∧
                     to_boolean itemId = true)) as Hid.
  { left. exists (VStr "c9d1"). split; vm_compute; reflexivity. }
  split; [done|].
  exact (saveLineItem_createId_unused Fixture.ToString Fixture.getApiVersion
           Fixture.getBasicHeaders Fixture.deepCopyObject Fixture.createId Fixture.otherCreateId
           Fixture.salesChannelId Fixture.contextToken Fixture.editedItem VUndefined VUndefined
           Fixture.w0 Hid).
Defined.

Lemma saveLineItem_deepCopyObject_unused_witness :
  ((isNew Fixture.unchangedItem ∧ isProduct Fixture.unchangedItem) ∨
   priceAgrees Fixture.unchangedItem) ∧
  Fixture.saveLineItem Fixture.salesChannelId Fixture.contextToken Fixture.unchangedItem
    VUndefined VUndefined Fixture.w0 =
  CartStoreService.saveLineItem Fixture.ToString Fixture.getApiVersion Fixture.getBasicHeaders
    Fixture.otherDeepCopyObject Fixture.createId Fixture.salesChannelId Fixture.contextToken
    Fixture.unchangedItem VUndefined VUndefined Fixture.w0.
Proof.
  assert ((isNew Fixture.unchangedItem ∧ isProduct Fixture.unchangedItem) ∨
          priceAgrees Fixture.unchangedItem) as Hcase.
  { right. exists (VNum 5%float), (VNum 5%float). split_and!; vm_compute; reflexivity. }
  split; [done|].
  exact (saveLineItem_deepCopyObject_unused Fixture.ToString Fixture.getApiVersion
           Fixture.getBasicHeaders Fixture.deepCopyObject Fixture.createId
           Fixture.otherDeepCopyObject Fixture.salesChannelId Fixture.contextToken
           Fixture.unchangedItem VUndefined VUndefined Fixture.w0 Hcase).
Defined.

Lemma toggleAutomaticPromotions_active_body_witness :
  Fixture.isActive "FEATURE_NEXT_10058" = true ∧
  get_prop Fixture.toggleParams "salesChannelId" = Normal Fixture.salesChannelId ∧
  ∃ r w',
    returns (CartStoreService.toggleAutomaticPromotions Fixture.getBasicHeaders Fixture.isActive
               Enable Fixture.contextToken Fixture.toggleParams VUndefined) Fixture.w0 r w' ∧
    method r = PATCH ∧
    bodyProps r = Some {[ "salesChannelId" := Fixture.salesChannelId ]}.
Proof.
  assert (Fixture.isActive "FEATURE_NEXT_10058" = true) as Hon by (vm_compute; reflexivity).
  assert (get_prop Fixture.toggleParams "salesChannelId" = Normal Fixture.salesChannelId)
    as Hsc by (vm_compute; reflexivity).
  split_and!; [done.. |].
  exact (proj2 (proj2 (toggleAutomaticPromotions_active_body Fixture.getBasicHeaders
                         Fixture.isActive Enable Fixture.contextToken Fixture.toggleParams
                         VUndefined Fixture.w0 Hon))
           Fixture.salesChannelId Hsc).
Defined.

Lemma mapLineItemTypeToPriceType_on_enumeration_witness :
  own_prop lineItemConstants_types "CREDIT" = Some (VStr "credit") ∧
  ∃ priceType,
    returns (Fixture.mapLineItemTypeToPriceType (VStr "credit")) Fixture.w0 priceType
      Fixture.w0 ∧
    if decide ("CREDIT" = "PROMOTION") then priceType = VUndefined
    else ∃ priceName, own_prop lineItemConstants_priceTypes priceName = Some priceType.
Proof.
  assert (own_prop lineItemConstants_types "CREDIT" = Some (VStr "credit")) as Htype
    by (vm_compute; reflexivity).
  split; [done|].
  exact (mapLineItemTypeToPriceType_on_enumeration Fixture.ToString "CREDIT" (VStr "credit")
           Fixture.w0 Htype).
Defined.
